(** * ContainerPrinter: the container classifier, the delimiter tables and the
    printing routine of [ContainerPrinter.hpp], as Rocq definitions.

    The header is template code.  Its compile-time half (which partial
    specialization of [is_printable_as_container] and of [delimiters] is
    selected for a type, whether [operator<<] is enabled, whether the body of
    [PrintingHelper] can be instantiated) is modelled on a datatype of C++
    types; its run-time half (what [PrintingHelper] writes) is modelled on a
    datatype of values, with the stream passed explicitly.  A program that the
    compiler rejects has the outcome [IllFormed]. *)

From Stdlib Require Import List String Ascii Bool Arith ZArith NArith Lia.
From Stdlib Require Import DecimalString.
Import ListNotations.

Scheme All for option.
Scheme All for list.

(** ** C++ types *)

(** The namespace a user-defined class is declared in. *)
Inductive name_space : Type :=
| global_namespace
| unnamed_namespace
| named_namespace (name : string).

(** What the header asks of a class type, by name: the member functions
    [begin()], [end()] and [back()], the nested [iterator] typedef, and
    whether its iterators accept [it - n] (random access).  The nested
    [value_type] typedef is kept apart because it names a type. *)
Inductive feature : Type :=
| begin_member
| end_member
| iterator_typedef
| back_member
| iterator_arithmetic.

Definition feature_eqb (f g : feature) : bool :=
  match f, g with
  | begin_member, begin_member
  | end_member, end_member
  | iterator_typedef, iterator_typedef
  | back_member, back_member
  | iterator_arithmetic, iterator_arithmetic => true
  | _, _ => false
  end.

(** What the body of a class says about one of those names: it declares
    the member the header needs, or it declares something else under that
    name (a data member [int iterator], a deleted or private [begin()]),
    which hides the member of the base and cannot be used in its place.
    [hides_value_type] is such a declaration for the name [value_type]. *)
Inductive declaration : Type :=
| declares (f : feature)
| hides (f : feature)
| hides_value_type.

Definition declares_feature (f : feature) (d : declaration) : bool :=
  match d with
  | declares g => feature_eqb f g
  | _ => false
  end.

Definition hides_feature (f : feature) (d : declaration) : bool :=
  match d with
  | hides g => feature_eqb f g
  | _ => false
  end.

Definition hides_the_value_type (d : declaration) : bool :=
  match d with
  | hides_value_type => true
  | _ => false
  end.

(** The types the header's templates are instantiated with, without
    reference or cv-qualifier, as [operator<<] deduces [ContainerType] from
    [const ContainerType&].  The standard templates keep the parameters that
    the header's partial specializations name
    ([std::basic_string<CharacterType, TraitsType, AllocatorType>],
    [std::set<Type, ComparatorType, AllocatorType>]).  [Class] is a
    user-defined class [class name : public base { members }] with at most
    one base; with no member and a base it is the [VectorWrapper] of the
    unit tests.  [ArrayOfUnknownBound T] is [T[]]. *)
Inductive type : Type :=
| Int
| Double
| Char
| WChar
| Char16
| UnsignedChar
| Array (ArrayType : type) (ArraySize : nat)
| ArrayOfUnknownBound (ArrayType : type)
| std_pair (FirstType SecondType : type)
| std_tuple (Types : list type)
| std_basic_string (CharacterType TraitsType AllocatorType : type)
| std_char_traits (CharacterType : type)
| std_allocator (Type_ : type)
| std_less (Type_ : type)
| std_set (Type_ ComparatorType AllocatorType : type)
| std_vector (Type_ : type)
| std_deque (Type_ : type)
| std_list (Type_ : type)
| std_array (Type_ : type) (Size : nat)
| Class (scope : name_space) (name : string) (members : list declaration)
        (value_type : option type) (base : option type).

Definition std_string : type :=
  std_basic_string Char (std_char_traits Char) (std_allocator Char).

Definition std_wstring : type :=
  std_basic_string WChar (std_char_traits WChar) (std_allocator WChar).

Definition std_set_of (T : type) : type :=
  std_set T (std_less T) (std_allocator T).

(** [has T f]: an object of type [T] offers [f].  For the standard containers
    this is the library's interface ([std::list] iterators are bidirectional,
    [std::set] has neither [back()] nor random access; [std::pair] and
    [std::tuple] have no [begin()]); a class offers what it declares and what
    its public base offers and it does not hide. *)
Fixpoint has (T : type) (f : feature) : bool :=
  match T with
  | std_basic_string _ _ _ | std_vector _ | std_deque _ | std_array _ _ => true
  | std_list _ =>
      match f with
      | iterator_arithmetic => false
      | _ => true
      end
  | std_set _ _ _ =>
      match f with
      | back_member | iterator_arithmetic => false
      | _ => true
      end
  | Class _ _ members _ base =>
      existsb (declares_feature f) members
      || negb (existsb (hides_feature f) members)
         && match base with
            | Some B => has B f
            | None => false
            end
  | _ => false
  end.

(** [value_type_with k T] is [Some (k E)] when [typename T::value_type] names
    [E], found in the class or in its base; [None] when [T] has no such
    nested type. *)
Fixpoint value_type_with {A : Type} (k : type -> A) (T : type) : option A :=
  match T with
  | std_basic_string C _ _ => Some (k C)
  | std_set E _ _ | std_vector E | std_deque E | std_list E | std_array E _ =>
      Some (k E)
  | Class _ _ _ (Some E) _ => Some (k E)
  | Class _ _ members None (Some B) =>
      if existsb hides_the_value_type members then None
      else value_type_with k B
  | _ => None
  end.

Definition value_type_of (T : type) : option type :=
  value_type_with (fun E => E) T.

Definition has_value_type (T : type) : bool :=
  match value_type_of T with
  | Some _ => true
  | None => false
  end.

(** ** Outcomes *)

(** Why the compiler rejects an instantiation. *)
Inductive diagnostic : Type :=
| ambiguous_partial_specialization
| undefined_delimiter_values
| no_match_for_operator_shl (T : type)
| no_matching_PrintingHelper (T : type)
| no_std_begin_end (T : type)
| no_match_for_operator_minus (T : type)
| no_member_named_back (T : type).

Inductive result (A : Type) : Type :=
| Ok (a : A)
| IllFormed (d : diagnostic).

Arguments Ok {A} a.
Arguments IllFormed {A} d.

Definition bind {A B : Type} (r : result A) (k : A -> result B) : result B :=
  match r with
  | Ok a => k a
  | IllFormed d => IllFormed d
  end.

Notation "x <- r ;; k" := (bind r (fun x => k))
  (at level 61, r at next level, right associativity).

Definition require (b : bool) (d : diagnostic) : result unit :=
  if b then Ok tt else IllFormed d.

(** ** Selecting a partial specialization *)

(** The argument lists of the header's partial specializations.  Every
    template parameter occurs once, so a parameter is [any_type]. *)
Inductive pattern : Type :=
| any_type
| char_type
| wchar_t_type
| array_of (element : pattern)
| pair_of (first second : pattern)
| basic_string_of (character traits allocator : pattern)
| set_of (element comparator allocator : pattern)
| tuple_of_types.

(** Template argument deduction of a pattern against a type. *)
Fixpoint matches (p : pattern) (T : type) : bool :=
  match p, T with
  | any_type, _ => true
  | char_type, Char => true
  | wchar_t_type, WChar => true
  | array_of e, Array E _ => matches e E
  | pair_of f s, std_pair First Second => matches f First && matches s Second
  | basic_string_of c t a, std_basic_string Character Traits Allocator =>
      matches c Character && matches t Traits && matches a Allocator
  | set_of e c a, std_set Element Comparator Allocator =>
      matches e Element && matches c Comparator && matches a Allocator
  | tuple_of_types, std_tuple _ => true
  | _, _ => false
  end.

(** [generalizes q p]: the arguments of [p], with fresh types for its
    parameters, can be deduced against [q]. *)
Fixpoint generalizes (q p : pattern) : bool :=
  match q, p with
  | any_type, _ => true
  | char_type, char_type => true
  | wchar_t_type, wchar_t_type => true
  | array_of e, array_of e' => generalizes e e'
  | pair_of f s, pair_of f' s' => generalizes f f' && generalizes s s'
  | basic_string_of c t a, basic_string_of c' t' a' =>
      generalizes c c' && generalizes t t' && generalizes a a'
  | set_of e c a, set_of e' c' a' =>
      generalizes e e' && generalizes c c' && generalizes a a'
  | tuple_of_types, tuple_of_types => true
  | _, _ => false
  end.

(** Partial ordering: [p] is more specialized than [q]. *)
Definition more_specialized (p q : pattern) : bool :=
  generalizes q p && negb (generalizes p q).

(** A partial specialization: its argument pattern, the condition under which
    the substitution into its remaining arguments succeeds, and what it
    defines. *)
Record partial_specialization (V : Type) : Type := {
  argument : pattern;
  substitutes : type -> bool;
  defines : V
}.

Arguments argument {V} _.
Arguments substitutes {V} _ _.
Arguments defines {V} _.

Inductive selection (V : Type) : Type :=
| primary_template
| selected (v : V)
| ambiguous.

Arguments primary_template {V}.
Arguments selected {V} v.
Arguments ambiguous {V}.

Section Selection.
Variable V : Type.

Definition viable (T : type) (s : partial_specialization V) : bool :=
  matches (argument s) T && substitutes s T.

Definition beats (s s' : partial_specialization V) : bool :=
  more_specialized (argument s) (argument s').

(** The candidates that are more specialized than every other one. *)
Fixpoint winners (before after : list (partial_specialization V))
  : list (partial_specialization V) :=
  match after with
  | [] => []
  | s :: rest =>
      (if forallb (beats s) (before ++ rest) then [s] else [])
      ++ winners (before ++ [s]) rest
  end.

(** No specialization matches: the primary template.  Otherwise the one
    more specialized than all the others; the use is ambiguous when there
    is none. *)
Definition select (specializations : list (partial_specialization V))
           (T : type) : selection V :=
  match filter (viable T) specializations with
  | [] => primary_template
  | candidates =>
      match winners [] candidates with
      | [s] => selected (defines s)
      | _ => ambiguous
      end
  end.
End Selection.

Arguments viable {V} T s.
Arguments beats {V} s s'.
Arguments winners {V} before after.
Arguments select {V} specializations T.

(** ** namespace Traits *)

Module Traits.

(** The [void_t<...>] of lines 43-48 is [void] when all four of
    [declval<Type&>().begin()], [declval<Type&>().end()],
    [typename Type::value_type] and [typename Type::iterator] are valid. *)
Definition void_t_substitutes (T : type) : bool :=
  has T begin_member && has T end_member
  && has_value_type T && has T iterator_typedef.

Definition unconstrained (T : type) : bool := true.

(** The partial specializations of [is_printable_as_container], lines
    40-109, in the order of the header. *)
Definition specializations : list (partial_specialization bool) :=
  [ {| argument := any_type;
       substitutes := void_t_substitutes; defines := true |};
    {| argument := pair_of any_type any_type;
       substitutes := unconstrained; defines := true |};
    {| argument := array_of any_type;
       substitutes := unconstrained; defines := true |};
    {| argument := array_of char_type;
       substitutes := unconstrained; defines := false |};
    {| argument := array_of wchar_t_type;
       substitutes := unconstrained; defines := false |};
    {| argument := basic_string_of any_type any_type any_type;
       substitutes := unconstrained; defines := false |} ].

(** [is_printable_as_container<Type>::value]; the primary template of lines
    27-33 is [std::false_type]. *)
Definition is_printable_as_container (T : type) : result bool :=
  match select specializations T with
  | primary_template => Ok false
  | selected value => Ok value
  | ambiguous => IllFormed ambiguous_partial_specialization
  end.

(** [is_printable_as_container_v<Type>], used as a condition. *)
Definition is_printable_as_container_v (T : type) : bool :=
  match is_printable_as_container T with
  | Ok value => value
  | IllFormed _ => false
  end.

End Traits.

(** ** Characters, streams and values *)

(** The character type of a stream: [char] (narrow) or [wchar_t] (wide). *)
Inductive CharacterType : Type :=
| char
| wchar_t.

Definition character (C : CharacterType) : Type :=
  match C with
  | char => ascii
  | wchar_t => N
  end.

(** A narrow literal ["..."] and a wide literal [L"..."], without the
    terminating zero. *)
Definition narrow (s : string) : list ascii := list_ascii_of_string s.

Definition L (s : string) : list N := map N_of_ascii (list_ascii_of_string s).

(** [stream.widen(c)]. *)
Definition widen (C : CharacterType) : ascii -> character C :=
  match C with
  | char => fun c => c
  | wchar_t => N_of_ascii
  end.

Definition type_of_character (C : CharacterType) : type :=
  match C with
  | char => Char
  | wchar_t => WChar
  end.

(** A [std::basic_ostream<CharacterType, std::char_traits<CharacterType>>],
    as the characters written to it so far. *)
Definition basic_ostream (C : CharacterType) : Type := list (character C).

(** The objects handed to the printer.  A [Sequence] is an object of the
    class or array type [T] seen through [std::begin] and [std::end]: its
    elements in iteration order. *)
Inductive value : Type :=
| Integer (z : Z)
| String_ (C : CharacterType) (text : list (character C))
| Sequence (T : type) (elements : list value)
| Pair (first second : value)
| Tuple (elements : list value).

Fixpoint type_of (v : value) : type :=
  match v with
  | Integer _ => Int
  | String_ C _ =>
      std_basic_string (type_of_character C)
        (std_char_traits (type_of_character C))
        (std_allocator (type_of_character C))
  | Sequence T _ => T
  | Pair first second => std_pair (type_of first) (type_of second)
  | Tuple elements => std_tuple (map type_of elements)
  end.

(** ** namespace Printer *)

Module Printer.

(** [delimiter_values<DelimiterType>], lines 124-132: three C strings. *)
Record delimiter_values (DelimiterType : Type) : Type := {
  prefix : list DelimiterType;
  delimiter : list DelimiterType;
  postfix : list DelimiterType
}.

Arguments prefix {DelimiterType} _.
Arguments delimiter {DelimiterType} _.
Arguments postfix {DelimiterType} _.

Definition unconstrained (T : type) : bool := true.

(** The partial specializations [delimiters<..., char>], lines 151-157,
    178-181, 203-206 and 224-227, by their first argument. *)
Definition narrow_specializations
  : list (partial_specialization (delimiter_values ascii)) :=
  [ {| argument := any_type; substitutes := unconstrained;
       defines := {| prefix := narrow "["; delimiter := narrow ", ";
                     postfix := narrow "]" |} |};
    {| argument := set_of any_type any_type any_type;
       substitutes := unconstrained;
       defines := {| prefix := narrow "{"; delimiter := narrow ", ";
                     postfix := narrow "}" |} |};
    {| argument := pair_of any_type any_type; substitutes := unconstrained;
       defines := {| prefix := narrow "("; delimiter := narrow ", ";
                     postfix := narrow ")" |} |};
    {| argument := tuple_of_types; substitutes := unconstrained;
       defines := {| prefix := narrow "<"; delimiter := narrow ", ";
                     postfix := narrow ">" |} |} ].

(** The partial specializations [delimiters<..., wchar_t>], lines 162-168,
    191-194, 215-218 and 233-236. *)
Definition wide_specializations
  : list (partial_specialization (delimiter_values N)) :=
  [ {| argument := any_type; substitutes := unconstrained;
       defines := {| prefix := L "["; delimiter := L ", ";
                     postfix := L "]" |} |};
    {| argument := set_of any_type any_type any_type;
       substitutes := unconstrained;
       defines := {| prefix := L "{"; delimiter := L ", ";
                     postfix := L "}" |} |};
    {| argument := pair_of any_type any_type; substitutes := unconstrained;
       defines := {| prefix := L "("; delimiter := L ", ";
                     postfix := L ")" |} |};
    {| argument := tuple_of_types; substitutes := unconstrained;
       defines := {| prefix := L "<"; delimiter := L ", ";
                     postfix := L ">" |} |} ].

(** The primary template of lines 137-146 declares [values] and never
    defines it. *)
Definition values {V : Type} (s : selection V) : result V :=
  match s with
  | primary_template => IllFormed undefined_delimiter_values
  | selected v => Ok v
  | ambiguous => IllFormed ambiguous_partial_specialization
  end.

(** [delimiters<ContainerType, CharacterType>::values]. *)
Definition delimiters (ContainerType : type) (C : CharacterType)
  : result (delimiter_values (character C)) :=
  match C with
  | char => values (select narrow_specializations ContainerType)
  | wchar_t => values (select wide_specializations ContainerType)
  end.

(** [Traits::unqualified_t<Type>], line 22.  The types here carry no
    reference and no cv-qualifier. *)
Definition unqualified_t (T : type) : type := T.

Definition is_array (T : type) : bool :=
  match T with
  | Array _ _ => true
  | _ => false
  end.

(** The type of [*it] for the iterators of [T]. *)
Definition element_with {A : Type} (k : type -> A) (T : type) : option A :=
  match T with
  | Array E _ => Some (k E)
  | _ => value_type_with k T
  end.

(** [int] to text with the stream's default flags. *)
Definition decimal (z : Z) : list ascii :=
  list_ascii_of_string (NilZero.string_of_int (Z.to_int z)).

Definition same_character_type (C' C : CharacterType)
  : list (character C') -> option (list (character C)) :=
  match C', C with
  | char, char => fun text => Some text
  | wchar_t, wchar_t => fun text => Some text
  | _, _ => fun _ => None
  end.

Inductive overload : Type :=
| generic_operator
| standard_inserter
| no_viable_function.

Section Printing.
(** The character type of the stream. *)
Variable C : CharacterType.

(** [visible T]: the [operator<<] of lines 324-337 is among the
    candidates of the expression [stream << value] written inside
    namespace [Printer], for a [value] of type [T].  The operator is
    declared in the global namespace after the templates that use it, so
    a compiler with two-phase lookup finds it by argument-dependent
    lookup only; a compiler that looks names up at instantiation finds
    it always. *)
Variable visible : type -> bool.

(** [stream << text] for a C string of the stream's character type. *)
Definition write (stream : basic_ostream C) (text : list (character C))
  : basic_ostream C :=
  stream ++ text.

(** The inserters of the standard library that are modelled: those of the
    arithmetic types and that of [std::basic_string] with the stream's
    character type and traits. *)
Definition std_inserter (T : type) : bool :=
  match T with
  | Int | Double | Char | WChar | Char16 | UnsignedChar => true
  | std_basic_string Char (std_char_traits Char) _ =>
      match C with
      | char => true
      | wchar_t => false
      end
  | std_basic_string WChar (std_char_traits WChar) _ =>
      match C with
      | char => false
      | wchar_t => true
      end
  | _ => false
  end.

(** Overload resolution of [stream << value] inside namespace [Printer].
    The generic operator takes [const ContainerType&], an exact match. *)
Definition resolve (T : type) : overload :=
  if visible T && Traits.is_printable_as_container_v T
  then generic_operator
  else if std_inserter T then standard_inserter
  else no_viable_function.

(** *** Instantiation *)

(** What the body of the generic [PrintingHelper], lines 250-265, asks of
    [ContainerType] at compile time; [k] checks the lambda's
    [stream << value] for the element type. *)
Definition PrintingHelper_instantiates_with
           (k : type -> result unit) (ContainerType : type)
  : result unit :=
  _ <- delimiters ContainerType C ;;
  _ <- require (is_array ContainerType
                || has ContainerType begin_member
                   && has ContainerType end_member)
               (no_std_begin_end ContainerType) ;;
  _ <- require (is_array ContainerType
                || has ContainerType iterator_arithmetic)
               (no_match_for_operator_minus ContainerType) ;;
  _ <- match element_with k ContainerType with
       | Some checked => checked
       | None => Ok tt
       end ;;
  require (has ContainerType back_member)
          (no_member_named_back ContainerType).

(** The same for the overload taking [std::pair], lines 281-292. *)
Definition PrintingHelper_pair_instantiates_with
           (k : type -> result unit) (FirstType SecondType : type)
  : result unit :=
  _ <- delimiters (unqualified_t (std_pair FirstType SecondType)) C ;;
  _ <- k FirstType ;;
  k SecondType.

(** [PrintingHelper(stream, m_container)] in [PrintTo], line 313: the
    overload for [std::pair] is the more specialized function
    template. *)
Definition PrintTo_instantiates_with
           (k : type -> result unit) (ContainerType : type)
  : result unit :=
  match ContainerType with
  | std_pair FirstType SecondType =>
      PrintingHelper_pair_instantiates_with k FirstType SecondType
  | _ => PrintingHelper_instantiates_with k ContainerType
  end.

(** [stream << value] inside namespace [Printer] is well-formed for a
    [value] of type [T]. *)
Fixpoint insertion_instantiates (T : type) : result unit :=
  match resolve T with
  | generic_operator => PrintTo_instantiates_with insertion_instantiates T
  | standard_inserter => Ok tt
  | no_viable_function => IllFormed (no_match_for_operator_shl T)
  end.

Definition PrintingHelper_instantiates : type -> result unit :=
  PrintingHelper_instantiates_with insertion_instantiates.

Definition PrintingHelper_pair_instantiates
  : type -> type -> result unit :=
  PrintingHelper_pair_instantiates_with insertion_instantiates.

(** *** Execution *)

(** [std::distance(std::begin(container), std::end(container))]. *)
Definition distance {E : Type} (container : list E) : nat :=
  List.length container.

(** [container.back()]. *)
Fixpoint back {E : Type} (container : list E) : option E :=
  match container with
  | [] => None
  | [value] => Some value
  | _ :: rest => back rest
  end.

(** [std::for_each(first, last, f)] over a stream that [f] captured by
    reference. *)
Fixpoint for_each {E : Type} (range : list E)
         (f : basic_ostream C -> E -> result (basic_ostream C))
         (stream : basic_ostream C) : result (basic_ostream C) :=
  match range with
  | [] => Ok stream
  | value :: rest => stream <- f stream value ;; for_each rest f stream
  end.

(** The generic [PrintingHelper], lines 246-266, for a container whose
    elements have type [E] and are inserted by [shl].  The range
    [std::begin(container), std::end(container) - 1] is the container
    without its last element. *)
Definition PrintingHelper {E : Type}
           (shl : basic_ostream C -> E -> result (basic_ostream C))
           (ContainerType : type)
           (stream : basic_ostream C) (container : list E)
  : result (basic_ostream C) :=
  _ <- PrintingHelper_instantiates ContainerType ;;
  delimiters <- delimiters ContainerType C ;;
  if distance container =? 0 then Ok stream
  else
    let stream := write stream (prefix delimiters) in
    stream <- for_each (removelast container)
                (fun stream value =>
                   stream <- shl stream value ;;
                   Ok (write stream (delimiter delimiters)))
                stream ;;
    match back container with
    | Some value =>
        stream <- shl stream value ;;
        Ok (write stream (postfix delimiters))
    | None => Ok stream
    end.

(** The [PrintingHelper] for [std::pair], lines 277-293. *)
Definition PrintingHelper_pair {F S : Type}
           (shl_first : basic_ostream C -> F -> result (basic_ostream C))
           (shl_second : basic_ostream C -> S -> result (basic_ostream C))
           (FirstType SecondType : type)
           (stream : basic_ostream C) (container : F * S)
  : result (basic_ostream C) :=
  _ <- PrintingHelper_pair_instantiates FirstType SecondType ;;
  delimiters <-
    delimiters (unqualified_t (std_pair FirstType SecondType)) C ;;
  let stream := write stream (prefix delimiters) in
  stream <- shl_first stream (fst container) ;;
  let stream := write stream (delimiter delimiters) in
  stream <- shl_second stream (snd container) ;;
  Ok (write stream (postfix delimiters)).

(** An element together with its [stream << value]. *)
Definition inserter : Type :=
  basic_ostream C -> result (basic_ostream C).

Definition run (stream : basic_ostream C) (i : inserter)
  : result (basic_ostream C) :=
  i stream.

(** [ContainerPrinter<ContainerType, CharacterType, TraitsType>], lines
    303-318: it holds a reference to the caller's container. *)
Record ContainerPrinter : Type := { m_container : value }.

(** [PrintTo], lines 311-314, where [insert] is [stream << value] for the
    elements.  The call [PrintingHelper(stream, m_container)] selects the
    overload for [std::pair] when the container is one, the generic overload
    otherwise; the last case, a value that is neither a sequence nor a pair,
    is never reached through [operator<<]. *)
Definition PrintTo (insert : value -> inserter) (printer : ContainerPrinter)
           (stream : basic_ostream C) : result (basic_ostream C) :=
  match m_container printer with
  | Pair first second =>
      PrintingHelper_pair run run (type_of first) (type_of second)
        stream (insert first, insert second)
  | Sequence ContainerType elements =>
      PrintingHelper run ContainerType stream (map insert elements)
  | other => PrintingHelper run (type_of other) stream []
  end.

(** The standard inserters at run time.  A string is written to a
    stream of its own character type only. *)
Definition std_insert (v : value) (stream : basic_ostream C)
  : result (basic_ostream C) :=
  match v with
  | Integer z => Ok (write stream (map (widen C) (decimal z)))
  | String_ C' text =>
      match same_character_type C' C text with
      | Some text => Ok (write stream text)
      | None => IllFormed (no_match_for_operator_shl (type_of v))
      end
  | other => IllFormed (no_match_for_operator_shl (type_of other))
  end.

(** [stream << value] inside namespace [Printer]. *)
Fixpoint insert (v : value) : inserter :=
  fun stream =>
    match resolve (type_of v) with
    | generic_operator => PrintTo insert {| m_container := v |} stream
    | standard_inserter => std_insert v stream
    | no_viable_function =>
        IllFormed (no_match_for_operator_shl (type_of v))
    end.

End Printing.

End Printer.

(** ** The generic output operation *)

(** [operator<<], lines 324-337.  The default template argument
    [std::enable_if_t<Traits::is_printable_as_container_v<ContainerType>>]
    removes the operator from the candidates of any other type; the body
    prints through a [ContainerPrinter] and returns the stream. *)
Definition operator_shl (C : CharacterType) (visible : type -> bool)
           (stream : basic_ostream C) (container : value)
  : result (basic_ostream C) :=
  if Traits.is_printable_as_container_v (type_of container)
  then
    stream <- Printer.PrintTo C visible (Printer.insert C visible)
                {| Printer.m_container := container |} stream ;;
    Ok stream
  else IllFormed (no_match_for_operator_shl (type_of container)).

(** ** Name lookup of the operator inside namespace Printer *)

(** A compiler that looks every name up at the point of instantiation. *)
Definition lookup_at_instantiation (T : type) : bool := true.

(** [T] or one of its base classes is declared in the global namespace. *)
Fixpoint declared_in_global_namespace (T : type) : bool :=
  match T with
  | Class scope _ _ _ base =>
      match scope with
      | global_namespace => true
      | _ => false
      end
      || match base with
         | Some B => declared_in_global_namespace B
         | None => false
         end
  | _ => false
  end.

(** Two-phase lookup: the global namespace is among the namespaces
    associated with [T], which are those of a class and of its bases and,
    for a template specialization, those associated with its template type
    arguments. *)
Fixpoint argument_dependent_lookup (T : type) : bool :=
  match T with
  | Int | Double | Char | WChar | Char16 | UnsignedChar => false
  | Array E _ | ArrayOfUnknownBound E => argument_dependent_lookup E
  | std_pair F1 F2 =>
      argument_dependent_lookup F1 || argument_dependent_lookup F2
  | std_tuple Types => existsb argument_dependent_lookup Types
  | std_basic_string A1 A2 A3 | std_set A1 A2 A3 =>
      argument_dependent_lookup A1 || argument_dependent_lookup A2
      || argument_dependent_lookup A3
  | std_char_traits E | std_allocator E | std_less E
  | std_vector E | std_deque E | std_list E | std_array E _ =>
      argument_dependent_lookup E
  | Class _ _ _ _ _ => declared_in_global_namespace T
  end.

(** ** The objects of the unit tests and of the specification's scenarios *)

Definition std_cout : basic_ostream char := [].

Definition std_wcout : basic_ostream wchar_t := [].

Definition integers (T : type) (zs : list Z) : value :=
  Sequence T (map Integer zs).

Definition VectorWrapper (T : type) : type :=
  Class unnamed_namespace "VectorWrapper" [] None (Some (std_vector T)).


(** ** The specification's vocabulary *)

(** The decision policy of section 4.1: six rules in priority order, first
    match wins.  A character array is an array of [char] (narrow) or of
    [wchar_t] (wide), the two element types the header's comments name. *)
Definition character_array (T : type) : bool :=
  match T with
  | Array Char _ | Array WChar _ => true
  | _ => false
  end.

Definition string_instantiation (T : type) : bool :=
  match T with
  | std_basic_string _ _ _ => true
  | _ => false
  end.

Definition pair_like (T : type) : bool :=
  match T with
  | std_pair _ _ => true
  | _ => false
  end.

Definition fixed_size_array (T : type) : bool :=
  match T with
  | Array _ _ => true
  | _ => false
  end.

Definition exposes_container_interface (T : type) : bool :=
  has T begin_member && has T end_member
  && has_value_type T && has T iterator_typedef.

Definition decision_policy (T : type) : bool :=
  if character_array T then false
  else if string_instantiation T then false
  else if pair_like T then true
  else if fixed_size_array T then true
  else if exposes_container_interface T then true
  else false.





(** [join(texts, separator)]. *)
Fixpoint join {A : Type} (separator : list A) (texts : list (list A))
  : list A :=
  match texts with
  | [] => []
  | [text] => text
  | text :: rest => text ++ separator ++ join separator rest
  end.

(** The textual form of a value as an element: what [stream << value]
    inside namespace [Printer] writes to a stream that holds nothing. *)
Definition text_of (C : CharacterType) (visible : type -> bool) (v : value)
  : result (list (character C)) :=
  Printer.insert C visible v [].

(** An insertion that either is rejected, or appends one and the same text to
    whatever stream it is given. *)
Definition uniform (C : CharacterType) (i : Printer.inserter C) : Prop :=
  exists r : result (list (character C)),
    forall stream, i stream = (text <- r ;; Ok (stream ++ text)).

(** A delimiter set with the separator [, ], in the character width [C]. *)
Definition brackets (C : CharacterType) (opening closing : string)
  : Printer.delimiter_values (character C) :=
  {| Printer.prefix := map (widen C) (narrow opening);
     Printer.delimiter := map (widen C) (narrow ", ");
     Printer.postfix := map (widen C) (narrow closing) |}.

Definition default_brackets (C : CharacterType)
  : Printer.delimiter_values (character C) :=
  brackets C "[" "]".

(** The shapes with an entry of their own in the table of section 4.2. *)
Definition specialized_shape (T : type) : bool :=
  match T with
  | std_set _ _ _ | std_pair _ _ | std_tuple _ => true
  | _ => false
  end.

(** The table of section 4.2 of the specification. *)
Definition delimiter_table (T : type) (C : CharacterType)
  : Printer.delimiter_values (character C) :=
  match T with
  | std_set _ _ _ => brackets C "{" "}"
  | std_pair _ _ => brackets C "(" ")"
  | std_tuple _ => brackets C "<" ">"
  | _ => default_brackets C
  end.

(** A value is well typed when a [Sequence] is an object of a container or
    array type other than the strings (which are [String_] values) and
    holds elements of that type's element type. *)
Fixpoint well_typed (v : value) : Prop :=
  match v with
  | Sequence T elements =>
      string_instantiation T = false
      /\ exists E,
        Printer.element_with (fun E => E) T = Some E
        /\ (fix each (l : list value) : Prop :=
              match l with
              | [] => True
              | e :: rest => (type_of e = E /\ well_typed e) /\ each rest
              end) elements
  | Pair first second => well_typed first /\ well_typed second
  | _ => True
  end.

(** The body of [operator<<] can be instantiated for [ContainerType]. *)
Definition operator_shl_instantiates (C : CharacterType)
           (visible : type -> bool) (ContainerType : type) : result unit :=
  Printer.PrintTo_instantiates_with C
    (Printer.insertion_instantiates C visible) ContainerType.

(** A type written with the fundamental types and the standard library
    only: no user-defined class occurs in it. *)
Fixpoint standard_type (T : type) : bool :=
  match T with
  | Int | Double | Char | WChar | Char16 | UnsignedChar => true
  | Array E _ | ArrayOfUnknownBound E => standard_type E
  | std_pair F1 F2 => standard_type F1 && standard_type F2
  | std_tuple Types => forallb standard_type Types
  | std_basic_string A1 A2 A3 | std_set A1 A2 A3 =>
      standard_type A1 && standard_type A2 && standard_type A3
  | std_char_traits E | std_allocator E | std_less E
  | std_vector E | std_deque E | std_list E | std_array E _ =>
      standard_type E
  | Class _ _ _ _ _ => false
  end.

(** The strings of a narrow stream as elements. *)
Definition strings (texts : list (list ascii)) : list value :=
  map (String_ char) texts.

(** No instantiation of [std::basic_string] occurs in the type. *)
Fixpoint string_free (T : type) : bool :=
  match T with
  | Int | Double | Char | WChar | Char16 | UnsignedChar => true
  | std_basic_string _ _ _ => false
  | Array E _ | ArrayOfUnknownBound E => string_free E
  | std_pair F1 F2 => string_free F1 && string_free F2
  | std_tuple Types => forallb string_free Types
  | std_set A1 A2 A3 => string_free A1 && string_free A2 && string_free A3
  | std_char_traits E | std_allocator E | std_less E
  | std_vector E | std_deque E | std_list E | std_array E _ =>
      string_free E
  | Class _ _ _ vt base =>
      match vt with
      | Some E => string_free E
      | None => true
      end
      && match base with
         | Some B => string_free B
         | None => true
         end
  end.

(** A value whose leaves are integers: an integer, or a container, pair
    or tuple of such values, of a string-free container type. *)
Fixpoint plain (v : value) : bool :=
  match v with
  | Integer _ => true
  | String_ _ _ => false
  | Sequence T elements => string_free T && forallb plain elements
  | Pair first second => plain first && plain second
  | Tuple elements => forallb plain elements
  end.

(** The outcome of an insertion on a narrow stream, seen on a wide one:
    every character widened. *)
Definition widened (r : result (basic_ostream char))
  : result (basic_ostream wchar_t) :=
  match r with
  | Ok stream => Ok (map N_of_ascii stream)
  | IllFormed d => IllFormed d
  end.

(** ** The routine on a stream with its formatting state *)

(** The definitions above see a stream as the characters written to it,
    which is what a stream in its initial formatting state shows.  Every
    [<<] of lines 257-265 and 287-292 is a formatted insertion; [Formatted]
    is the same routine on a stream that carries the state such an
    insertion reads: the field width, the fill character, the adjustment and
    whether the stream is good.  The flags that select the digits of a
    number are left at their initial value. *)
Module Formatted.

Record ostream (C : CharacterType) : Type := {
  written : list (character C);
  width : nat;
  fill : character C;
  left : bool;
  good : bool
}.

Arguments written {C} _.
Arguments width {C} _.
Arguments fill {C} _.
Arguments left {C} _.
Arguments good {C} _.

Section Printing.
Variable C : CharacterType.
Variable visible : type -> bool.

(** A formatted insertion of a character sequence (a C string, a
    [std::basic_string], the digits of an [int]): nothing on a stream that
    is not good; otherwise the text padded with the fill character up to the
    field width, on the left unless [left] is set, and the width reset to
    zero. *)
Definition put (stream : ostream C) (text : list (character C))
  : ostream C :=
  if good stream then
    let padding :=
      repeat (fill stream) (width stream - List.length text) in
    {| written :=
         written stream
         ++ (if left stream then text ++ padding else padding ++ text);
       width := 0;
       fill := fill stream;
       left := left stream;
       good := good stream |}
  else stream.

Definition std_insert (v : value) (stream : ostream C)
  : result (ostream C) :=
  match v with
  | Integer z => Ok (put stream (map (widen C) (Printer.decimal z)))
  | String_ C' text =>
      match Printer.same_character_type C' C text with
      | Some text => Ok (put stream text)
      | None => IllFormed (no_match_for_operator_shl (type_of v))
      end
  | other => IllFormed (no_match_for_operator_shl (type_of other))
  end.

Fixpoint for_each {E : Type} (range : list E)
         (f : ostream C -> E -> result (ostream C))
         (stream : ostream C) : result (ostream C) :=
  match range with
  | [] => Ok stream
  | value :: rest => stream <- f stream value ;; for_each rest f stream
  end.

(** The generic [PrintingHelper], lines 246-266. *)
Definition PrintingHelper {E : Type}
           (shl : ostream C -> E -> result (ostream C))
           (ContainerType : type)
           (stream : ostream C) (container : list E)
  : result (ostream C) :=
  _ <- Printer.PrintingHelper_instantiates C visible ContainerType ;;
  delimiters <- Printer.delimiters ContainerType C ;;
  if Printer.distance container =? 0 then Ok stream
  else
    let stream := put stream (Printer.prefix delimiters) in
    stream <- for_each (removelast container)
                (fun stream value =>
                   stream <- shl stream value ;;
                   Ok (put stream (Printer.delimiter delimiters)))
                stream ;;
    match Printer.back container with
    | Some value =>
        stream <- shl stream value ;;
        Ok (put stream (Printer.postfix delimiters))
    | None => Ok stream
    end.

(** The [PrintingHelper] for [std::pair], lines 277-293. *)
Definition PrintingHelper_pair {F S : Type}
           (shl_first : ostream C -> F -> result (ostream C))
           (shl_second : ostream C -> S -> result (ostream C))
           (FirstType SecondType : type)
           (stream : ostream C) (container : F * S)
  : result (ostream C) :=
  _ <- Printer.PrintingHelper_pair_instantiates C visible
         FirstType SecondType ;;
  delimiters <-
    Printer.delimiters
      (Printer.unqualified_t (std_pair FirstType SecondType)) C ;;
  let stream := put stream (Printer.prefix delimiters) in
  stream <- shl_first stream (fst container) ;;
  let stream := put stream (Printer.delimiter delimiters) in
  stream <- shl_second stream (snd container) ;;
  Ok (put stream (Printer.postfix delimiters)).

Definition inserter : Type := ostream C -> result (ostream C).

Definition run (stream : ostream C) (i : inserter) : result (ostream C) :=
  i stream.

(** [PrintTo], lines 311-314. *)
Definition PrintTo (insert : value -> inserter)
           (printer : Printer.ContainerPrinter)
           (stream : ostream C) : result (ostream C) :=
  match Printer.m_container printer with
  | Pair first second =>
      PrintingHelper_pair run run (type_of first) (type_of second)
        stream (insert first, insert second)
  | Sequence ContainerType elements =>
      PrintingHelper run ContainerType stream (map insert elements)
  | other => PrintingHelper run (type_of other) stream []
  end.

(** [stream << value] inside namespace [Printer]. *)
Fixpoint insert (v : value) : inserter :=
  fun stream =>
    match Printer.resolve C visible (type_of v) with
    | Printer.generic_operator =>
        PrintTo insert {| Printer.m_container := v |} stream
    | Printer.standard_inserter => std_insert v stream
    | Printer.no_viable_function =>
        IllFormed (no_match_for_operator_shl (type_of v))
    end.

(** [operator<<], lines 324-337. *)
Definition operator_shl (stream : ostream C) (container : value)
  : result (ostream C) :=
  if Traits.is_printable_as_container_v (type_of container)
  then
    stream <- PrintTo insert {| Printer.m_container := container |} stream ;;
    Ok stream
  else IllFormed (no_match_for_operator_shl (type_of container)).

End Printing.





End Formatted.

(** * Properties *)

(** ** The classifier *)

Section ClassifierFacts.
Import Traits.




(** For a class type only the structural specialization of lines 40-51 can
    match. *)
Lemma class_is_printable scope name members vt base :
  is_printable_as_container (Class scope name members vt base)
  = Ok (void_t_substitutes (Class scope name members vt base)).
Proof.
  unfold is_printable_as_container, select.
  cbn [specializations filter viable argument substitutes matches
       unconstrained andb].
  destruct (void_t_substitutes _); reflexivity.
Qed.

(** The partial ordering the selection relies on: the two character-array
    specializations are more specialized than the array one, and the string
    specialization is more specialized than the structural one. *)
Lemma partial_ordering_of_the_specializations :
  more_specialized (array_of char_type) (array_of any_type) = true
  /\ more_specialized (array_of wchar_t_type) (array_of any_type) = true
  /\ more_specialized (basic_string_of any_type any_type any_type) any_type
     = true
  /\ more_specialized (array_of char_type) (array_of wchar_t_type) = false.
Proof. repeat split. Qed.

(** Deduction is monotone in the pattern: a type matched by a pattern is
    matched by every pattern that generalizes it. *)
Lemma generalizes_matches (q p : pattern) :
  generalizes q p = true ->
  forall T, matches p T = true -> matches q T = true.
Proof.
  revert p. induction q as [ | | |e IHe|f IHf s IHs|c IHc t IHt a IHa
                            |e IHe c IHc a IHa| ];
    intros p Hg T Hm; try reflexivity;
    destruct p; try discriminate;
    destruct T; try discriminate; cbn in *;
    repeat match goal with
      | H : _ && _ = true |- _ => apply andb_true_iff in H as [? ?]
      end;
    repeat (apply andb_true_iff; split); eauto.
Qed.

(** C2.  The partial specialization the compiler selects for a type gives
    the value of the specification's decision policy, for every type:
    [false] for the arrays of [char] (narrow) and of [wchar_t] (wide) and
    for every instantiation of [std::basic_string]; otherwise [true] for
    [std::pair], for the fixed-size arrays of any other element type and for
    the types that expose [begin], [end], [value_type] and [iterator];
    [false] for all the rest.  The selection is never ambiguous. *)
Theorem is_printable_as_container_decision_policy (T : type) :
  is_printable_as_container T = Ok (decision_policy T).
Proof.
  destruct T as [ | | | | | | E n | | | | | | | | | | | | | ];
    try reflexivity.
  - destruct E; reflexivity.
  - rewrite class_is_printable. unfold decision_policy.
    cbn [character_array string_instantiation pair_like fixed_size_array].
    unfold exposes_container_interface, void_t_substitutes.
    destruct (_ && _); reflexivity.
Qed.




(** The unit tests of "Iterable Container Detection". *)
Example iterable_container_detection :
  map is_printable_as_container_v
      [std_vector Int; std_list Int; std_set_of Int; Array Int 10;
       VectorWrapper Int; std_string; std_wstring]
  = [true; true; true; true; true; false; false].
Proof. reflexivity. Qed.

End ClassifierFacts.

(** ** The delimiter tables *)

Section DelimiterFacts.
Import Printer.

Lemma delimiters_table (T : type) (C : CharacterType) :
  delimiters T C = Ok (delimiter_table T C).
Proof. destruct C, T; reflexivity. Qed.

(** C7.  For every container type and both character widths the lookup
    selects one partial specialization, never the undefined primary template
    and never ambiguously, and so yields one delimiter set; a type that is
    no [std::set], [std::pair] or [std::tuple] gets the default brackets
    [[], [, ] and []] in the requested width, the other three get their
    entry of the specification's table. *)
Theorem delimiters_total_and_deterministic (T : type) (C : CharacterType) :
  delimiters T C
  = Ok (if specialized_shape T then delimiter_table T C
        else default_brackets C).
Proof. destruct C, T; reflexivity. Qed.

(** The unit tests of "Delimiters"; a wide literal is the narrow one
    widened. *)
Example delimiters_of_the_unit_tests :
  delimiters (ArrayOfUnknownBound Char) char
  = Ok {| prefix := narrow "["; delimiter := narrow ", ";
          postfix := narrow "]" |}
  /\ delimiters (ArrayOfUnknownBound WChar) wchar_t
     = Ok {| prefix := L "["; delimiter := L ", "; postfix := L "]" |}
  /\ delimiters (std_set_of Int) char
     = Ok {| prefix := narrow "{"; delimiter := narrow ", ";
             postfix := narrow "}" |}
  /\ delimiters (std_set_of Int) wchar_t
     = Ok {| prefix := L "{"; delimiter := L ", "; postfix := L "}" |}
  /\ delimiters (std_pair Int Int) char
     = Ok {| prefix := narrow "("; delimiter := narrow ", ";
             postfix := narrow ")" |}
  /\ delimiters (std_pair Int Int) wchar_t
     = Ok {| prefix := L "("; delimiter := L ", "; postfix := L ")" |}
  /\ delimiters (std_tuple [Int; Int]) char
     = Ok {| prefix := narrow "<"; delimiter := narrow ", ";
             postfix := narrow ">" |}
  /\ delimiters (std_tuple [Int; Int]) wchar_t
     = Ok {| prefix := L "<"; delimiter := L ", "; postfix := L ">" |}.
Proof. repeat split. Qed.

End DelimiterFacts.

(** ** The printing routine *)

Section PrintingFacts.
Import Printer.

Variable C : CharacterType.
Variable visible : type -> bool.

(** *** Insertions append *)

Lemma uniform_write (text : list (character C)) :
  uniform C (fun stream => Ok (write C stream text)).
Proof. exists (Ok text). reflexivity. Qed.

Lemma uniform_ill_formed (d : diagnostic) :
  uniform C (fun _ => IllFormed d).
Proof. exists (IllFormed d). reflexivity. Qed.

Lemma uniform_skip : uniform C (fun stream => Ok stream).
Proof. exists (Ok []). intros stream. cbn. now rewrite app_nil_r. Qed.

Lemma uniform_then (i j : inserter C) :
  uniform C i -> uniform C j ->
  uniform C (fun stream => stream <- i stream ;; j stream).
Proof.
  intros [ri Hi] [rj Hj].
  exists (a <- ri ;; b <- rj ;; Ok (a ++ b)).
  intros stream. rewrite Hi.
  destruct ri as [a|d]; cbn; [|reflexivity].
  rewrite Hj. destruct rj as [b|d]; cbn; [|reflexivity].
  now rewrite app_assoc.
Qed.

Lemma uniform_ext (i j : inserter C) :
  (forall stream, i stream = j stream) -> uniform C i -> uniform C j.
Proof.
  intros E [r H]. exists r. intros stream. now rewrite <- E.
Qed.

Lemma uniform_checked {A : Type} (check : result A) (i : inserter C) :
  uniform C i -> uniform C (fun stream => _ <- check ;; i stream).
Proof.
  intros H. destruct check as [a|d]; cbn.
  - exact H.
  - apply uniform_ill_formed.
Qed.

Lemma uniform_for_each {E : Type}
      (f : basic_ostream C -> E -> result (basic_ostream C)) (range : list E) :
  Forall (fun value => uniform C (fun stream => f stream value)) range ->
  uniform C (for_each C range f).
Proof.
  induction 1 as [|value rest Hvalue _ IH]; cbn [for_each].
  - apply uniform_skip.
  - exact (uniform_then (fun stream => f stream value) (for_each C rest f) Hvalue IH).
Qed.

Lemma Forall_removelast {E : Type} (P : E -> Prop) (l : list E) :
  Forall P l -> Forall P (removelast l).
Proof.
  induction 1 as [|x l Hx Hl IH]; cbn; [constructor|].
  destruct l; constructor; assumption.
Qed.

Lemma back_Forall {E : Type} (P : E -> Prop) (l : list E) (x : E) :
  Forall P l -> back l = Some x -> P x.
Proof.
  induction 1 as [|y l Hy Hl IH]; cbn; [discriminate|].
  destruct l as [|z l]; [intros [= <-]; exact Hy|exact IH].
Qed.

(** The generic [PrintingHelper] is uniform when the insertion of each
    element is. *)
Lemma uniform_PrintingHelper {E : Type}
      (shl : basic_ostream C -> E -> result (basic_ostream C))
      (ContainerType : type) (container : list E) :
  Forall (fun value => uniform C (fun stream => shl stream value))
         container ->
  uniform C (fun stream =>
               PrintingHelper C visible shl ContainerType stream container).
Proof.
  intros H. unfold PrintingHelper.
  apply uniform_checked.
  destruct (delimiters ContainerType C) as [d|e]; cbn [bind];
    [|apply uniform_ill_formed].
  destruct (distance container =? 0); [apply uniform_skip|].
  apply (uniform_then (fun stream => Ok (write C stream (prefix d)))
           (fun stream =>
              stream <- for_each C (removelast container)
                          (fun stream value =>
                             stream <- shl stream value ;;
                             Ok (write C stream (delimiter d)))
                          stream ;;
              match back container with
              | Some value =>
                  stream <- shl stream value ;;
                  Ok (write C stream (postfix d))
              | None => Ok stream
              end)).
  { apply uniform_write. }
  apply uniform_then.
  - apply uniform_for_each. apply Forall_removelast.
    revert H. apply Forall_impl. intros value Hvalue.
    apply (uniform_then _ _ Hvalue). apply uniform_write.
  - destruct (back container) as [value|] eqn:Hback; [|apply uniform_skip].
    apply uniform_then; [|apply uniform_write].
    exact (back_Forall _ _ _ H Hback).
Qed.

Lemma uniform_PrintingHelper_pair {F S : Type}
      (shl_first : basic_ostream C -> F -> result (basic_ostream C))
      (shl_second : basic_ostream C -> S -> result (basic_ostream C))
      (FirstType SecondType : type) (container : F * S) :
  uniform C (fun stream => shl_first stream (fst container)) ->
  uniform C (fun stream => shl_second stream (snd container)) ->
  uniform C (fun stream =>
               PrintingHelper_pair C visible shl_first shl_second
                 FirstType SecondType stream container).
Proof.
  intros Hfirst Hsecond. unfold PrintingHelper_pair.
  apply uniform_checked.
  destruct (delimiters _ C) as [d|e]; cbn [bind];
    [|apply uniform_ill_formed].
  apply (uniform_then (fun stream => Ok (write C stream (prefix d)))
           (fun stream =>
              stream <- shl_first stream (fst container) ;;
              let stream := write C stream (delimiter d) in
              stream <- shl_second stream (snd container) ;;
              Ok (write C stream (postfix d)))).
  { apply uniform_write. }
  apply (uniform_then _ _ Hfirst).
  apply (uniform_then (fun stream => Ok (write C stream (delimiter d)))
           (fun stream =>
              stream <- shl_second stream (snd container) ;;
              Ok (write C stream (postfix d)))).
  { apply uniform_write. }
  apply (uniform_then _ _ Hsecond). apply uniform_write.
Qed.

Lemma insert_unfold (v : value) (stream : basic_ostream C) :
  insert C visible v stream
  = match resolve C visible (type_of v) with
    | generic_operator =>
        PrintTo C visible (insert C visible) {| m_container := v |} stream
    | standard_inserter => std_insert C v stream
    | no_viable_function =>
        IllFormed (no_match_for_operator_shl (type_of v))
    end.
Proof. destruct v; reflexivity. Qed.

Lemma uniform_std_insert (v : value) : uniform C (std_insert C v).
Proof.
  destruct v as [z|C' text|T elements|first second|elements];
    unfold std_insert; try apply uniform_ill_formed.
  - apply uniform_write.
  - destruct (same_character_type C' C text);
      [apply uniform_write|apply uniform_ill_formed].
Qed.

Lemma list_all_Forall (P : value -> Prop) (l : list value) :
  list_all value P l -> Forall P l.
Proof. induction 1; constructor; assumption. Qed.

Lemma uniform_PrintTo (v : value) :
  match v with
  | Sequence _ elements =>
      Forall (fun e => uniform C (insert C visible e)) elements
  | Pair first second =>
      uniform C (insert C visible first)
      /\ uniform C (insert C visible second)
  | _ => True
  end ->
  uniform C (PrintTo C visible (insert C visible) {| m_container := v |}).
Proof.
  destruct v as [z|C' text|T elements|first second|elements];
    unfold PrintTo; cbn [m_container]; intros H;
    try (apply uniform_PrintingHelper; constructor).
  - apply uniform_PrintingHelper. apply Forall_map.
    revert H. apply Forall_impl. intros e He. exact He.
  - destruct H as [Hfirst Hsecond].
    apply uniform_PrintingHelper_pair; assumption.
Qed.

Lemma insert_uniform_step (v : value) :
  uniform C (PrintTo C visible (insert C visible) {| m_container := v |}) ->
  uniform C (insert C visible v).
Proof.
  intros H.
  apply (uniform_ext
           (fun stream =>
              match resolve C visible (type_of v) with
              | generic_operator =>
                  PrintTo C visible (insert C visible)
                    {| m_container := v |} stream
              | standard_inserter => std_insert C v stream
              | no_viable_function =>
                  IllFormed (no_match_for_operator_shl (type_of v))
              end)).
  - intros stream. symmetry. apply insert_unfold.
  - destruct (resolve C visible (type_of v)).
    + exact H.
    + apply uniform_std_insert.
    + apply uniform_ill_formed.
Qed.

(** What [stream << value] does depends on the value only, never on what
    the stream already holds. *)
Lemma insert_uniform (v : value) : uniform C (insert C visible v).
Proof.
  induction v as [z|C' text|T elements IH|first IHfirst second IHsecond
                  |elements IH];
    apply insert_uniform_step, uniform_PrintTo; try exact I.
  - apply list_all_Forall, IH.
  - split; assumption.
Qed.

Lemma insert_on_stream (v : value) (stream : basic_ostream C) :
  insert C visible v stream
  = (text <- text_of C visible v ;; Ok (stream ++ text)).
Proof.
  destruct (insert_uniform v) as [r H]. unfold text_of.
  rewrite (H stream), (H []). destruct r; reflexivity.
Qed.

Lemma insertion_instantiates_unfold (T : type) :
  insertion_instantiates C visible T
  = match resolve C visible T with
    | generic_operator =>
        PrintTo_instantiates_with C (insertion_instantiates C visible) T
    | standard_inserter => Ok tt
    | no_viable_function => IllFormed (no_match_for_operator_shl T)
    end.
Proof. destruct T; reflexivity. Qed.

Lemma bind_Ok {A B : Type} (r : result A) (k : A -> result B) (b : B) :
  (x <- r ;; k x) = Ok b -> exists a, r = Ok a /\ k a = Ok b.
Proof. destruct r as [a|d]; [eauto|discriminate]. Qed.

Lemma PrintingHelper_rejects_pair (F S : type) :
  PrintingHelper_instantiates C visible (std_pair F S)
  = IllFormed (no_std_begin_end (std_pair F S)).
Proof.
  unfold PrintingHelper_instantiates, PrintingHelper_instantiates_with.
  rewrite delimiters_table. reflexivity.
Qed.

(** An insertion that runs was instantiated. *)
Lemma insert_Ok_instantiates (v : value) (stream stream' : basic_ostream C) :
  insert C visible v stream = Ok stream' ->
  insertion_instantiates C visible (type_of v) = Ok tt.
Proof.
  rewrite insert_unfold, insertion_instantiates_unfold.
  destruct (resolve C visible (type_of v)); [|reflexivity|discriminate].
  intros H.
  assert (generic : forall T (container : list (inserter C)),
             PrintingHelper C visible (run C) T stream container
             = Ok stream' ->
             PrintTo_instantiates_with C (insertion_instantiates C visible) T
             = Ok tt).
  { intros T container HT. apply bind_Ok in HT as ([] & HT & _).
    destruct T; try exact HT.
    now rewrite PrintingHelper_rejects_pair in HT. }
  destruct v as [z|C' text|T elements|first second|elements];
    unfold PrintTo in H; cbn [m_container type_of] in *;
    try (exact (generic _ _ H)).
  apply bind_Ok in H as ([] & H & _). exact H.
Qed.

Lemma pair_is_printable (F S : type) :
  Traits.is_printable_as_container_v (std_pair F S) = true.
Proof. reflexivity. Qed.

Lemma text_of_instantiates {v : value} {text : list (character C)} :
  text_of C visible v = Ok text ->
  insertion_instantiates C visible (type_of v) = Ok tt.
Proof. apply insert_Ok_instantiates. Qed.

Lemma insert_text {v : value} {text : list (character C)}
      (stream : basic_ostream C) :
  text_of C visible v = Ok text ->
  insert C visible v stream = Ok (stream ++ text).
Proof. intros H. rewrite insert_on_stream, H. reflexivity. Qed.

(** *** Pairs *)

Lemma PrintTo_pair (first second : value) (a b : list (character C))
      (stream : basic_ostream C) :
  text_of C visible first = Ok a ->
  text_of C visible second = Ok b ->
  PrintTo C visible (insert C visible)
    {| m_container := Pair first second |} stream
  = Ok (stream ++ prefix (brackets C "(" ")") ++ a
               ++ delimiter (brackets C "(" ")") ++ b
               ++ postfix (brackets C "(" ")")).
Proof.
  intros Ha Hb.
  unfold PrintTo, PrintingHelper_pair, PrintingHelper_pair_instantiates,
    PrintingHelper_pair_instantiates_with, unqualified_t.
  cbn [m_container]. rewrite delimiters_table.
  rewrite (text_of_instantiates Ha), (text_of_instantiates Hb).
  cbn [bind fst snd run delimiter_table].
  rewrite (insert_text _ Ha). cbn [bind].
  rewrite (insert_text _ Hb). cbn [bind].
  unfold write. now rewrite <- !app_assoc.
Qed.

(** C6.  For every pair whose two elements have a textual form [a] and [b],
    the operation writes the prefix, [a], the separator, [b] and the postfix
    of the pair delimiters, on any stream.  Nothing is tested on the way:
    elements that print as the empty text give the five fragments with two
    of them empty. *)
Theorem pair_writes_five_fragments
        (first second : value) (a b : list (character C)) :
  text_of C visible first = Ok a ->
  text_of C visible second = Ok b ->
  forall stream : basic_ostream C,
    operator_shl C visible stream (Pair first second)
    = Ok (stream ++ prefix (brackets C "(" ")") ++ a
                 ++ delimiter (brackets C "(" ")") ++ b
                 ++ postfix (brackets C "(" ")")).
Proof.
  intros Ha Hb stream. unfold operator_shl.
  cbn [type_of]. rewrite pair_is_printable.
  rewrite (PrintTo_pair _ _ _ _ stream Ha Hb). reflexivity.
Qed.

Lemma operator_shl_uniform (v : value) :
  uniform C (fun stream => operator_shl C visible stream v).
Proof.
  unfold operator_shl.
  destruct (Traits.is_printable_as_container_v (type_of v));
    [|apply uniform_ill_formed].
  apply (uniform_then
           (PrintTo C visible (insert C visible) {| m_container := v |})
           (fun stream => Ok stream)); [|apply uniform_skip].
  apply uniform_PrintTo.
  destruct v as [z|C' text|T elements|first second|elements];
    try exact I.
  - apply Forall_forall. intros e _. apply insert_uniform.
  - split; apply insert_uniform.
Qed.

(** *** Sequences *)

(** The loop of lines 259-263 followed by lines 265: every element but the
    last with the separator, then the last element and the postfix. *)
Lemma for_each_then_back (container : list (inserter C))
      (texts : list (list (character C)))
      (separator closing : list (character C)) :
  Forall2 (fun (i : inserter C) text =>
             forall stream, i stream = Ok (stream ++ text))
          container texts ->
  container <> [] ->
  forall stream : basic_ostream C,
    (stream <- for_each C (removelast container)
                 (fun stream value =>
                    stream <- run C stream value ;;
                    Ok (write C stream separator))
                 stream ;;
     match back container with
     | Some value =>
         stream <- run C stream value ;; Ok (write C stream closing)
     | None => Ok stream
     end)
    = Ok (stream ++ join separator texts ++ closing).
Proof.
  induction 1 as [|i text container texts Hi Hrest IH]; [congruence|].
  intros _ stream.
  destruct Hrest as [|j text' container texts Hj Hrest].
  - cbn. unfold run. rewrite Hi. cbn. unfold write.
    now rewrite <- app_assoc.
  - change (removelast (i :: j :: container))
      with (i :: removelast (j :: container)).
    change (back (i :: j :: container)) with (back (j :: container)).
    cbn [for_each bind]. unfold run at 1. rewrite Hi. cbn [bind].
    specialize (IH ltac:(discriminate) (write C (stream ++ text) separator)).
    destruct (for_each C (removelast (j :: container)) _ _) as [s|d];
      cbn [bind] in *.
    + rewrite IH. unfold write. cbn [join].
      now rewrite <- !app_assoc.
    + discriminate.
Qed.

Lemma PrintTo_sequence (T : type) (elements : list value)
      (texts : list (list (character C))) (stream : basic_ostream C) :
  PrintingHelper_instantiates C visible T = Ok tt ->
  Forall2 (fun e text => text_of C visible e = Ok text) elements texts ->
  PrintTo C visible (insert C visible)
    {| m_container := Sequence T elements |} stream
  = Ok (match elements with
        | [] => stream
        | _ => stream ++ prefix (delimiter_table T C)
                 ++ join (delimiter (delimiter_table T C)) texts
                 ++ postfix (delimiter_table T C)
        end).
Proof.
  intros Hwf Htexts. unfold PrintTo, PrintingHelper. cbn [m_container].
  rewrite Hwf, delimiters_table. cbn [bind].
  unfold distance. rewrite length_map.
  destruct elements as [|e elements]; [reflexivity|].
  cbn [List.length Nat.eqb].
  rewrite (for_each_then_back (map (insert C visible) (e :: elements))
             texts).
  - cbn [bind]. unfold write. now rewrite <- !app_assoc.
  - clear -Htexts. induction Htexts as [|x t l ts Hx _ IH]; cbn [map];
      constructor; [|exact IH].
    intros s. now apply insert_text.
  - discriminate.
Qed.


(** For the same container types, a container without elements writes
    nothing: lines 252-255 return before the prefix. *)
Theorem empty_sequence_writes_nothing (T : type) :
  Traits.is_printable_as_container_v T = true ->
  PrintingHelper_instantiates C visible T = Ok tt ->
  forall stream : basic_ostream C,
    operator_shl C visible stream (Sequence T []) = Ok stream.
Proof.
  intros HT Hwf stream. unfold operator_shl. cbn [type_of]. rewrite HT.
  rewrite (PrintTo_sequence T [] [] stream Hwf (Forall2_nil _)).
  reflexivity.
Qed.

(** *** Printing succeeds where it is instantiated *)

Lemma value_type_with_map {A : Type} (k : type -> A) (T : type) :
  value_type_with k T = option_map k (value_type_with (fun E => E) T).
Proof.
  induction T
    as [ | | | | | | | | | | | | | | | | | | |
         scope name members vt _ base IHbase];
    try reflexivity.
  destruct vt as [E|]; [reflexivity|].
  destruct base as [B|]; [|reflexivity].
  cbn [value_type_with]. destruct (existsb _ members); [reflexivity|].
  inversion IHbase as [B' IHB|]; subst. exact IHB.
Qed.

Lemma element_with_map {A : Type} (k : type -> A) (T : type) :
  element_with k T = option_map k (element_with (fun E => E) T).
Proof.
  destruct T; try reflexivity; apply value_type_with_map.
Qed.

Lemma std_insert_succeeds (v : value) :
  well_typed v ->
  std_inserter C (type_of v) = true ->
  exists text, forall stream, std_insert C v stream = Ok (stream ++ text).
Proof.
  destruct v as [z|C' text|T elements|first second|elements]; intros Hv Hs.
  - eexists. reflexivity.
  - destruct C', C; try discriminate; exists text; reflexivity.
  - destruct Hv as (Hstring & E & HE & _). cbn [type_of] in Hs.
    destruct T; discriminate.
  - discriminate.
  - discriminate.
Qed.

Lemma each_Forall (E : type) (elements : list value) :
  (fix each (l : list value) : Prop :=
     match l with
     | [] => True
     | e :: rest => (type_of e = E /\ well_typed e) /\ each rest
     end) elements ->
  Forall (fun e => type_of e = E /\ well_typed e) elements.
Proof.
  induction elements as [|e rest IH]; intros H; constructor.
  - apply H.
  - apply IH, H.
Qed.

Lemma texts_exist (elements : list value) :
  Forall (fun e => exists text, text_of C visible e = Ok text) elements ->
  exists texts,
    Forall2 (fun e text => text_of C visible e = Ok text) elements texts.
Proof.
  induction 1 as [|e rest [text He] _ [texts IH]].
  - exists []. constructor.
  - exists (text :: texts). constructor; assumption.
Qed.

Lemma PrintingHelper_instantiates_elements (T E : type) :
  PrintingHelper_instantiates C visible T = Ok tt ->
  element_with (fun E => E) T = Some E ->
  insertion_instantiates C visible E = Ok tt.
Proof.
  unfold PrintingHelper_instantiates, PrintingHelper_instantiates_with.
  intros H HE. rewrite element_with_map, HE in H. cbn [option_map] in H.
  apply bind_Ok in H as (_ & _ & H).
  apply bind_Ok in H as (_ & _ & H).
  apply bind_Ok in H as (_ & _ & H).
  apply bind_Ok in H as ([] & H & _). exact H.
Qed.

Lemma resolve_generic (T : type) :
  resolve C visible T = generic_operator ->
  Traits.is_printable_as_container_v T = true.
Proof.
  unfold resolve.
  destruct (Traits.is_printable_as_container_v T); [reflexivity|].
  rewrite andb_false_r. destruct (std_inserter C T); discriminate.
Qed.

Lemma resolve_standard (T : type) :
  resolve C visible T = standard_inserter -> std_inserter C T = true.
Proof.
  unfold resolve. destruct (_ && _); [discriminate|].
  destruct (std_inserter C T); [reflexivity|discriminate].
Qed.

(** The two halves of the model agree: when [stream << value] can be
    instantiated for the type of a well-typed value, running it returns and
    gives the value a textual form. *)
Theorem insertion_succeeds (v : value) :
  well_typed v ->
  insertion_instantiates C visible (type_of v) = Ok tt ->
  exists text, text_of C visible v = Ok text.
Proof.
  induction v as [z|C' text|T elements IH|first IHfirst second IHsecond
                  |elements IH];
    intros Hv; rewrite insertion_instantiates_unfold; unfold text_of;
    rewrite insert_unfold;
    destruct (resolve C visible _) eqn:Hr; try discriminate; intros Hi;
    try (destruct (std_insert_succeeds _ Hv (resolve_standard _ Hr))
          as [text' H]; exists text'; apply (H []));
    try (apply resolve_generic in Hr; discriminate Hr).
  - destruct Hv as (_ & E & HE & Heach). cbn [type_of] in Hi.
    assert (Hwf : PrintingHelper_instantiates C visible T = Ok tt).
    { destruct T; try exact Hi. discriminate HE. }
    apply each_Forall in Heach.
    destruct (texts_exist elements) as [texts Htexts].
    { apply list_all_Forall in IH.
      rewrite Forall_forall in *. intros e He.
      destruct (Heach e He) as [<- Hwt].
      apply (IH e He Hwt).
      exact (PrintingHelper_instantiates_elements _ _ Hwf HE). }
    rewrite (PrintTo_sequence _ _ texts _ Hwf Htexts). eauto.
  - destruct Hv as [Hfirst Hsecond]. cbn [type_of] in Hi.
    unfold PrintTo_instantiates_with, PrintingHelper_pair_instantiates_with
      in Hi.
    apply bind_Ok in Hi as (_ & _ & Hi).
    apply bind_Ok in Hi as ([] & Ha & Hb).
    destruct (IHfirst Hfirst Ha) as [a Hta].
    destruct (IHsecond Hsecond Hb) as [b Htb].
    rewrite (PrintTo_pair _ _ _ _ _ Hta Htb). eauto.
Qed.

(** For every well-typed value whose type the classifier accepts and for
    which the body of [operator<<] can be instantiated, the operation
    returns the stream it was given with a text appended. *)
Theorem operator_shl_succeeds (v : value) :
  well_typed v ->
  Traits.is_printable_as_container_v (type_of v) = true ->
  operator_shl_instantiates C visible (type_of v) = Ok tt ->
  exists text, forall stream : basic_ostream C,
    operator_shl C visible stream v = Ok (stream ++ text).
Proof.
  intros Hv HT Hi.
  destruct (operator_shl_uniform v) as [[text|d] H].
  - exists text. exact H.
  - exfalso. specialize (H []). unfold operator_shl in H.
    rewrite HT in H. cbn [bind] in H.
    unfold operator_shl_instantiates in Hi.
    destruct v as [z|C' text|T elements|first second|elements];
      try discriminate HT.
    + destruct Hv as (_ & E & HE & Heach).
      assert (Hwf : PrintingHelper_instantiates C visible T = Ok tt).
      { destruct T; try exact Hi. discriminate HE. }
      apply each_Forall in Heach.
      destruct (texts_exist elements) as [texts Htexts].
      { rewrite Forall_forall in *. intros e He.
        destruct (Heach e He) as [<- Hwt].
        apply (insertion_succeeds e Hwt).
        exact (PrintingHelper_instantiates_elements _ _ Hwf HE). }
      rewrite (PrintTo_sequence _ _ texts _ Hwf Htexts) in H. discriminate H.
    + destruct Hv as [Hfirst Hsecond]. cbn [type_of] in Hi.
      unfold PrintTo_instantiates_with,
        PrintingHelper_pair_instantiates_with in Hi.
      apply bind_Ok in Hi as (_ & _ & Hi).
      apply bind_Ok in Hi as ([] & Ha & Hb).
      destruct (insertion_succeeds first Hfirst Ha) as [a Hta].
      destruct (insertion_succeeds second Hsecond Hb) as [b Htb].
      rewrite (PrintTo_pair _ _ _ _ _ Hta Htb) in H. discriminate H.
Qed.

(** *** Containers the classifier accepts and the routine cannot print *)

(** C1 (defect of the code).  [std::list<int>] is classified as a printable
    container, yet [operator<<] cannot be instantiated for it: line 259
    subtracts from [std::end(container)], which a bidirectional iterator
    does not allow.  No text is produced for the list [1, 2, 3]. *)
Theorem list_is_classified_but_not_printed (stream : basic_ostream C) :
  Traits.is_printable_as_container (std_list Int) = Ok true
  /\ operator_shl C visible stream (integers (std_list Int) [1; 2; 3]%Z)
     = IllFormed (no_match_for_operator_minus (std_list Int)).
Proof.
  split; [reflexivity|].
  unfold operator_shl, integers, PrintTo, PrintingHelper,
    PrintingHelper_instantiates, PrintingHelper_instantiates_with.
  cbn [m_container type_of]. rewrite delimiters_table. reflexivity.
Qed.

(** C3 (defect of the code).  The same for a [std::list] that holds no
    element: the instantiation is rejected before the test of lines 252-255
    can run, so the operation does not return the stream unchanged. *)
Theorem empty_list_is_classified_but_not_printed
        (E : type) (stream : basic_ostream C) :
  Traits.is_printable_as_container (std_list E) = Ok true
  /\ operator_shl C visible stream (Sequence (std_list E) [])
     = IllFormed (no_match_for_operator_minus (std_list E)).
Proof.
  split; [reflexivity|].
  unfold operator_shl, PrintTo, PrintingHelper,
    PrintingHelper_instantiates, PrintingHelper_instantiates_with.
  cbn [m_container type_of]. rewrite delimiters_table. reflexivity.
Qed.

(** C5 (defect of the code).  [std::set<int>] is classified as a printable
    container and has delimiters of its own, the braces; but its iterators
    are bidirectional and it has no [back()], so [operator<<] cannot be
    instantiated for it and the set [1, 2, 3] is not printed. *)
Theorem set_is_classified_but_not_printed (stream : basic_ostream C) :
  Traits.is_printable_as_container (std_set_of Int) = Ok true
  /\ delimiters (std_set_of Int) C = Ok (brackets C "{" "}")
  /\ has (std_set_of Int) back_member = false
  /\ operator_shl C visible stream (integers (std_set_of Int) [1; 2; 3]%Z)
     = IllFormed (no_match_for_operator_minus (std_set_of Int)).
Proof.
  split; [reflexivity|]. split; [apply delimiters_table|].
  split; [reflexivity|].
  unfold operator_shl, integers, PrintTo, PrintingHelper,
    PrintingHelper_instantiates, PrintingHelper_instantiates_with.
  cbn [m_container type_of]. rewrite delimiters_table. reflexivity.
Qed.

(** C8 (defect of the code).  The array type [int[3]] is accepted by the
    classifier, so [operator<<] is enabled for it; its body calls
    [container.back()] on line 265, which an array does not have.  The
    operation is rejected and returns no stream for the array [1, 2, 3]. *)
Theorem array_is_classified_but_not_printed (stream : basic_ostream C) :
  Traits.is_printable_as_container (Array Int 3) = Ok true
  /\ operator_shl C visible stream (integers (Array Int 3) [1; 2; 3]%Z)
     = IllFormed (no_member_named_back (Array Int 3)).
Proof.
  split; [reflexivity|].
  unfold operator_shl, integers, PrintTo, PrintingHelper,
    PrintingHelper_instantiates, PrintingHelper_instantiates_with.
  cbn [m_container type_of]. rewrite delimiters_table.
  cbn [Traits.is_printable_as_container_v Traits.is_printable_as_container
       bind require is_array orb element_with].
  rewrite insertion_instantiates_unfold. unfold resolve.
  destruct (visible Int); reflexivity.
Qed.

(** *** Tuples *)

(** C4 (as amended).  For the tuple [(1, 2)] the classifier answers
    [false], so [operator<<] is not enabled and writes nothing, whatever the
    stream; the delimiter lookup alone knows the tuple shape and gives
    [<], [, ] and [>]. *)
Theorem tuple_is_rejected (stream : basic_ostream C) :
  Traits.is_printable_as_container (std_tuple [Int; Int]) = Ok false
  /\ operator_shl C visible stream (Tuple [Integer 1; Integer 2])
     = IllFormed (no_match_for_operator_shl (std_tuple [Int; Int]))
  /\ delimiters (std_tuple [Int; Int]) C = Ok (brackets C "<" ">").
Proof.
  split; [reflexivity|]. split; [reflexivity|]. apply delimiters_table.
Qed.

End PrintingFacts.

(** ** Concrete runs *)

(** C4 (counterexample).  The tuple [(1, 2)] is not written as [<1, 2>],
    even by a compiler that finds the operator everywhere. *)
Lemma tuple_is_not_printed :
  ~ (Traits.is_printable_as_container_v (std_tuple [Int; Int]) = true
     /\ operator_shl char lookup_at_instantiation std_cout
          (Tuple [Integer 1; Integer 2])
        = Ok (narrow "<1, 2>")).
Proof. intros [H _]. discriminate H. Qed.

Lemma pair_writes_five_fragments_witness :
  operator_shl char argument_dependent_lookup std_cout
    (Pair (Integer 10) (Integer 100))
  = Ok (narrow "(10, 100)").
Proof.
  exact (pair_writes_five_fragments char argument_dependent_lookup
           (Integer 10) (Integer 100) (narrow "10") (narrow "100")
           eq_refl eq_refl std_cout).
Defined.

(** The two runs of the unit tests' "Container Printing". *)
Example printing_of_the_unit_tests :
  operator_shl char argument_dependent_lookup std_cout
    (Pair (Integer 10) (Integer 100))
  = Ok (narrow "(10, 100)")
  /\ operator_shl char argument_dependent_lookup std_cout
       (integers (std_vector Int) [1; 2; 3; 4]%Z)
     = Ok (narrow "[1, 2, 3, 4]").
Proof. split; reflexivity. Qed.

(** The same vector on a wide stream. *)
Example printing_on_a_wide_stream :
  operator_shl wchar_t argument_dependent_lookup std_wcout
    (integers (VectorWrapper Int) [1; 2; 3; 4]%Z)
  = Ok (L "[1, 2, 3, 4]").
Proof. reflexivity. Qed.

(** A vector of vectors.  With two-phase lookup the inner
    [stream << value] does not find the operator, which is declared in the
    global namespace after [PrintingHelper] while [std::vector<int>] has no
    associated namespace but [std]; a compiler that looks names up at
    instantiation prints the nesting, the empty inner vector as nothing. *)
Example vector_of_vectors :
  let nested :=
    Sequence (std_vector (std_vector Int))
      [integers (std_vector Int) [1; -2]%Z; integers (std_vector Int) []] in
  operator_shl char argument_dependent_lookup std_cout nested
  = IllFormed (no_match_for_operator_shl (std_vector Int))
  /\ operator_shl char lookup_at_instantiation std_cout nested
     = Ok (narrow "[[1, -2], ]").
Proof. split; reflexivity. Qed.

(** A pair of empty vectors: all five fragments, two of them empty. *)
Example pair_of_empty_vectors :
  operator_shl char lookup_at_instantiation std_cout
    (Pair (integers (std_vector Int) []) (integers (std_vector Int) []))
  = Ok (narrow "(, )").
Proof. reflexivity. Qed.

(** A string is not routed through the generic operation; as an element it
    is written by the standard inserter. *)
Example strings_are_plain :
  operator_shl char argument_dependent_lookup std_cout
    (String_ char (narrow "ab"))
  = IllFormed (no_match_for_operator_shl std_string)
  /\ operator_shl char argument_dependent_lookup std_cout
       (Sequence (std_vector std_string)
          [String_ char (narrow "ab"); String_ char (narrow "c")])
     = Ok (narrow "[ab, c]").
Proof. split; reflexivity. Qed.



Example empty_vector_writes_nothing :
  operator_shl char argument_dependent_lookup (narrow "so far")
    (integers (std_vector Int) [])
  = Ok (narrow "so far").
Proof.
  apply (empty_sequence_writes_nothing char argument_dependent_lookup
           (std_vector Int)); reflexivity.
Defined.

(** A wrapper of the unit tests' kind around a vector of pairs, on a
    compiler that looks names up at instantiation: the operation is
    instantiated, so it returns. *)
Example wrapped_vector_of_pairs_succeeds :
  exists text : list ascii,
    forall stream : basic_ostream char,
      operator_shl char lookup_at_instantiation stream
        (Sequence (VectorWrapper (std_pair Int Int))
           [Pair (Integer 1) (Integer 2); Pair (Integer 3) (Integer 4)])
      = Ok (stream ++ text).
Proof.
  apply (operator_shl_succeeds char lookup_at_instantiation);
    [|reflexivity|reflexivity].
  split; [reflexivity|]. exists (std_pair Int Int).
  repeat split; exact I.
Defined.

(** * Further properties of the header *)

(** ** Classification of derived classes *)



Section PrintingMore.
Import Printer.

Variable C : CharacterType.
Variable visible : type -> bool.

(** ** Elements and the recursion *)

Lemma classified_has_no_std_inserter (T : type) :
  Traits.is_printable_as_container_v T = true -> std_inserter C T = false.
Proof.
  destruct T; try reflexivity; discriminate.
Qed.

Lemma resolve_classified (T : type) :
  Traits.is_printable_as_container_v T = true ->
  resolve C visible T
  = if visible T then generic_operator else no_viable_function.
Proof.
  intros H. unfold resolve.
  rewrite H, (classified_has_no_std_inserter T H), andb_true_r.
  reflexivity.
Qed.

Lemma bind_return (r : result (basic_ostream C)) :
  (stream <- r ;; Ok stream) = r.
Proof. destruct r; reflexivity. Qed.

Lemma rejected_element (T E : type) (d : diagnostic) :
  element_with (fun E => E) T = Some E ->
  insertion_instantiates C visible E = IllFormed d ->
  exists d', PrintingHelper_instantiates C visible T = IllFormed d'.
Proof.
  intros HE Hd.
  unfold PrintingHelper_instantiates, PrintingHelper_instantiates_with.
  rewrite element_with_map, HE. cbn [option_map]. rewrite Hd.
  destruct (delimiters T C); cbn [bind]; [|eauto].
  destruct (require _ _); cbn [bind]; [|eauto].
  destruct (require _ _); cbn [bind]; eauto.
Qed.

(** A standard container of tuples is never printed, not even when it
    holds no element, although the classifier accepts it: the classifier
    does not look at the element type, no [operator<<] takes a
    [std::tuple], and the lambda of lines 260-263 is instantiated for the
    element type whatever the container holds. *)
Theorem containers_of_tuples_are_never_printed
        (T : type) (Types : list type) :
  standard_type T = true ->
  element_with (fun E => E) T = Some (std_tuple Types) ->
  forall (elements : list value) (stream : basic_ostream C),
  exists d,
    operator_shl C visible stream (Sequence T elements) = IllFormed d.
Proof.
  intros _ HE elements stream. unfold operator_shl. cbn [type_of].
  destruct (Traits.is_printable_as_container_v T); [|eauto].
  assert (Hd : insertion_instantiates C visible (std_tuple Types)
               = IllFormed (no_match_for_operator_shl (std_tuple Types))).
  { rewrite insertion_instantiates_unfold. unfold resolve.
    cbn. rewrite andb_false_r. reflexivity. }
  destruct (rejected_element T _ _ HE Hd) as [d' Hd'].
  unfold PrintTo, PrintingHelper. cbn [m_container].
  rewrite Hd'. cbn [bind]. eauto.
Qed.

(** No built-in array is ever printed, although the classifier accepts the
    arrays of every element type but [char] and [wchar_t]: either the
    element type cannot be inserted, or line 265 asks the array for
    [back()]. *)
Theorem arrays_are_never_printed
        (E : type) (n : nat) (elements : list value)
        (stream : basic_ostream C) :
  exists d,
    operator_shl C visible stream (Sequence (Array E n) elements)
    = IllFormed d.
Proof.
  unfold operator_shl. cbn [type_of].
  destruct (Traits.is_printable_as_container_v (Array E n)); [|eauto].
  unfold PrintTo, PrintingHelper, PrintingHelper_instantiates,
    PrintingHelper_instantiates_with.
  cbn [m_container]. rewrite delimiters_table.
  cbn [bind require is_array orb element_with has].
  destruct (insertion_instantiates C visible E); cbn [bind]; eauto.
Qed.

(** ** Derived containers *)

(** A class that derives from [std::vector] and declares nothing prints
    exactly as the vector it wraps, for every content, success or
    rejection alike. *)
Theorem wrapper_prints_like_its_vector
        (scope : name_space) (name : string) (T : type)
        (elements : list value) (stream : basic_ostream C) :
  operator_shl C visible stream
    (Sequence (Class scope name [] None (Some (std_vector T))) elements)
  = operator_shl C visible stream (Sequence (std_vector T) elements).
Proof.
  unfold operator_shl, PrintTo, PrintingHelper, PrintingHelper_instantiates,
    PrintingHelper_instantiates_with.
  cbn [m_container type_of]. rewrite !delimiters_table. reflexivity.
Qed.

(** ** Chaining *)


(** ** Vectors of integers *)

Lemma insertion_of_int_instantiates :
  insertion_instantiates C visible Int = Ok tt.
Proof.
  rewrite insertion_instantiates_unfold. unfold resolve.
  cbn. rewrite andb_false_r. reflexivity.
Qed.

Lemma text_of_integer (z : Z) :
  text_of C visible (Integer z) = Ok (map (widen C) (decimal z)).
Proof.
  unfold text_of. rewrite insert_unfold. unfold resolve.
  cbn. rewrite andb_false_r. reflexivity.
Qed.

(** A [std::vector<int>] is printed on a narrow and on a wide stream, by
    every compiler: nothing for the empty vector, otherwise the opening
    bracket, the decimal numbers separated by [, ], the closing bracket. *)
Theorem vector_of_integers (zs : list Z) (stream : basic_ostream C) :
  operator_shl C visible stream (integers (std_vector Int) zs)
  = Ok (match zs with
        | [] => stream
        | _ => stream ++ prefix (default_brackets C)
                 ++ join (delimiter (default_brackets C))
                      (map (fun z => map (widen C) (decimal z)) zs)
                 ++ postfix (default_brackets C)
        end).
Proof.
  unfold operator_shl, integers. cbn [type_of].
  change (Traits.is_printable_as_container_v (std_vector Int)) with true.
  cbv iota. rewrite bind_return.
  rewrite (PrintTo_sequence C visible (std_vector Int) (map Integer zs)
             (map (fun z => map (widen C) (decimal z)) zs) stream).
  - destruct zs; reflexivity.
  - unfold PrintingHelper_instantiates, PrintingHelper_instantiates_with.
    rewrite delimiters_table. cbn [bind require is_array orb has andb
                                   element_with value_type_with].
    rewrite insertion_of_int_instantiates. reflexivity.
  - induction zs as [|z zs IH]; cbn [map]; constructor;
      [apply text_of_integer|exact IH].
Qed.

End PrintingMore.

(** ** Strings as elements *)

Lemma text_of_string (visible : type -> bool) (text : list ascii) :
  text_of char visible (String_ char text) = Ok text.
Proof.
  unfold text_of. rewrite insert_unfold. unfold Printer.resolve.
  cbn. rewrite andb_false_r. reflexivity.
Qed.

Lemma PrintingHelper_instantiates_for_strings (visible : type -> bool) :
  Printer.PrintingHelper_instantiates char visible (std_vector std_string)
  = Ok tt.
Proof.
  unfold Printer.PrintingHelper_instantiates,
    Printer.PrintingHelper_instantiates_with.
  cbn. unfold Printer.resolve. cbn. rewrite andb_false_r. reflexivity.
Qed.

Lemma PrintTo_strings (visible : type -> bool) (texts : list (list ascii))
      (stream : basic_ostream char) :
  Printer.PrintTo char visible (Printer.insert char visible)
    {| Printer.m_container :=
         Sequence (std_vector std_string) (strings texts) |} stream
  = Ok (match texts with
        | [] => stream
        | _ => stream ++ narrow "[" ++ join (narrow ", ") texts
                 ++ narrow "]"
        end).
Proof.
  rewrite (PrintTo_sequence char visible (std_vector std_string)
             (strings texts) texts stream).
  - destruct texts; reflexivity.
  - apply PrintingHelper_instantiates_for_strings.
  - unfold strings. induction texts as [|text texts IH]; cbn [map];
      constructor; [apply text_of_string|exact IH].
Qed.

(** The elements of a [std::vector<std::string>] are written as plain
    text on a narrow stream, never as bracketed containers of characters,
    whether or not name lookup finds the generic operator. *)
Theorem vector_of_strings (visible : type -> bool)
        (texts : list (list ascii)) (stream : basic_ostream char) :
  operator_shl char visible stream
    (Sequence (std_vector std_string) (strings texts))
  = Ok (match texts with
        | [] => stream
        | _ => stream ++ narrow "[" ++ join (narrow ", ") texts
                 ++ narrow "]"
        end).
Proof.
  unfold operator_shl. cbn [type_of].
  change (Traits.is_printable_as_container_v (std_vector std_string))
    with true.
  cbv iota. rewrite PrintTo_strings. reflexivity.
Qed.

(** The separator is not escaped: one string that holds [, ] is printed as
    the two strings around it are. *)
Theorem separator_in_a_string_is_not_escaped
        (visible : type -> bool) (a b : list ascii)
        (stream : basic_ostream char) :
  operator_shl char visible stream
    (Sequence (std_vector std_string) (strings [a ++ narrow ", " ++ b]))
  = operator_shl char visible stream
      (Sequence (std_vector std_string) (strings [a; b])).
Proof.
  unfold operator_shl. cbn [type_of].
  change (Traits.is_printable_as_container_v (std_vector std_string))
    with true.
  cbv iota. rewrite !PrintTo_strings. reflexivity.
Qed.

(** ** Two-phase lookup *)

Lemma standard_type_is_not_associated_with_the_global_namespace (T : type) :
  standard_type T = true -> argument_dependent_lookup T = false.
Proof.
  induction T
    as [ | | | | | |E IHE n|E IHE|F1 IH1 F2 IH2|Types IH
         |A1 IH1 A2 IH2 A3 IH3|E IHE|E IHE|E IHE
         |A1 IH1 A2 IH2 A3 IH3|E IHE|E IHE|E IHE|E IHE n
         |scope name members vt _ base _];
    cbn [standard_type argument_dependent_lookup]; intros H;
    try reflexivity; try discriminate; auto;
    repeat match goal with
      | H : _ && _ = true |- _ => apply andb_true_iff in H as [? ?]
      end;
    try (rewrite ?IH1, ?IH2, ?IH3 by assumption; reflexivity).
  induction IH as [|T IHT Types _ IHTypes]; [reflexivity|].
  cbn [forallb existsb] in *.
  apply andb_true_iff in H as [HT HTypes].
  now rewrite (IHT HT), (IHTypes HTypes).
Qed.

(** With two-phase lookup, a standard container whose element type is
    itself a classified container or pair written with standard types only
    and is no built-in array (a [std::vector<std::vector<int>>], a
    [std::vector<std::pair<int, int>>]) is never printed: the operator is
    declared in the global namespace after [PrintingHelper], such an element
    type is associated with namespace [std] alone, and no standard inserter
    takes it.  (A built-in array as element decays to a pointer, which the
    standard library inserts.) *)
Theorem nested_standard_containers_are_rejected
        (C : CharacterType) (T E : type) :
  standard_type T = true ->
  Printer.element_with (fun E => E) T = Some E ->
  standard_type E = true ->
  Printer.is_array E = false ->
  Traits.is_printable_as_container_v E = true ->
  forall (elements : list value) (stream : basic_ostream C),
  exists d,
    operator_shl C argument_dependent_lookup stream (Sequence T elements)
    = IllFormed d.
Proof.
  intros _ HE Hstd _ Hc elements stream.
  assert (Hd : Printer.insertion_instantiates C argument_dependent_lookup E
               = IllFormed (no_match_for_operator_shl E)).
  { rewrite insertion_instantiates_unfold, (resolve_classified _ _ _ Hc).
    now rewrite standard_type_is_not_associated_with_the_global_namespace. }
  unfold operator_shl. cbn [type_of].
  destruct (Traits.is_printable_as_container_v T); [|eauto].
  destruct (rejected_element C argument_dependent_lookup T E _ HE Hd)
    as [d' Hd'].
  unfold Printer.PrintTo, Printer.PrintingHelper. cbn [Printer.m_container].
  rewrite Hd'. cbn [bind]. eauto.
Qed.

Lemma nested_standard_containers_are_rejected_witness :
  exists d,
    operator_shl char argument_dependent_lookup std_cout
      (Sequence (std_vector (std_vector Int))
         [integers (std_vector Int) [1; 2]%Z])
    = IllFormed d.
Proof.
  apply (nested_standard_containers_are_rejected char
           (std_vector (std_vector Int)) (std_vector Int));
    reflexivity.
Defined.


(** ** Narrow and wide streams *)

Section Width.
Import Printer.

Variable visible : type -> bool.

Lemma resolve_width (T : type) :
  string_instantiation T = false ->
  resolve wchar_t visible T = resolve char visible T.
Proof. destruct T; try reflexivity; discriminate. Qed.

Lemma string_free_is_no_string (T : type) :
  string_free T = true -> string_instantiation T = false.
Proof. destruct T; try reflexivity; discriminate. Qed.

Lemma insertion_instantiates_width (T : type) :
  string_free T = true ->
  insertion_instantiates wchar_t visible T
  = insertion_instantiates char visible T
  /\ value_type_with (insertion_instantiates wchar_t visible) T
     = value_type_with (insertion_instantiates char visible) T.
Proof.
  induction T
    as [ | | | | | |E IHE n|E IHE|F1 IH1 F2 IH2|Types IH
         |A1 IH1 A2 IH2 A3 IH3|E IHE|E IHE|E IHE
         |A1 IH1 A2 IH2 A3 IH3|E IHE|E IHE|E IHE|E IHE n
         |scope name members vt IHvt base IHbase];
    intros H; try discriminate H;
    pose proof (string_free_is_no_string _ H) as Hno;
    cbn [string_free] in H;
    try (destruct vt as [E|]; [inversion IHvt as [E' IHE|]; subst|]);
    try (destruct base as [B|]; [inversion IHbase as [B' IHB|]; subst|]);
    repeat match goal with
      | H : _ && _ = true |- _ => apply andb_true_iff in H as [? ?]
      end;
    repeat match goal with
      | IH : string_free ?E = true -> _, H : string_free ?E = true |- _ =>
          destruct (IH H) as [? ?]; clear IH
      end;
    (split;
     [ rewrite !insertion_instantiates_unfold, (resolve_width _ Hno);
       destruct (resolve char visible _); try reflexivity;
       unfold PrintTo_instantiates_with, PrintingHelper_instantiates_with,
         PrintingHelper_pair_instantiates_with, unqualified_t;
       rewrite !delimiters_table; cbn [bind element_with value_type_with]
     | cbn [value_type_with] ]);
    repeat match goal with
      | Heq : insertion_instantiates wchar_t visible _ = _ |- _ =>
          rewrite ?Heq; clear Heq
      | Heq : value_type_with (insertion_instantiates wchar_t visible) _ = _
        |- _ => rewrite ?Heq; clear Heq
      end;
    reflexivity.
Qed.

Lemma PrintingHelper_instantiates_width (T : type) :
  string_free T = true ->
  PrintingHelper_instantiates wchar_t visible T
  = PrintingHelper_instantiates char visible T.
Proof.
  intros H.
  unfold PrintingHelper_instantiates, PrintingHelper_instantiates_with.
  rewrite !delimiters_table. cbn [bind].
  assert (He : element_with (insertion_instantiates wchar_t visible) T
               = element_with (insertion_instantiates char visible) T).
  { destruct T; try apply (insertion_instantiates_width _ H).
    cbn [element_with]. cbn [string_free] in H.
    now destruct (insertion_instantiates_width _ H) as [-> _]. }
  rewrite He. reflexivity.
Qed.

Lemma PrintingHelper_pair_instantiates_width (F S : type) :
  string_free F = true -> string_free S = true ->
  PrintingHelper_pair_instantiates wchar_t visible F S
  = PrintingHelper_pair_instantiates char visible F S.
Proof.
  intros HF HS.
  unfold PrintingHelper_pair_instantiates,
    PrintingHelper_pair_instantiates_with, unqualified_t.
  rewrite !delimiters_table. cbn [bind].
  destruct (insertion_instantiates_width _ HF) as [-> _].
  destruct (insertion_instantiates_width _ HS) as [-> _].
  reflexivity.
Qed.

Lemma delimiter_table_width (T : type) :
  prefix (delimiter_table T wchar_t)
  = map N_of_ascii (prefix (delimiter_table T char))
  /\ delimiter (delimiter_table T wchar_t)
     = map N_of_ascii (delimiter (delimiter_table T char))
  /\ postfix (delimiter_table T wchar_t)
     = map N_of_ascii (postfix (delimiter_table T char)).
Proof. destruct T; repeat split. Qed.

Lemma plain_type (v : value) :
  plain v = true -> string_free (type_of v) = true.
Proof.
  induction v as [z|C' text|T elements IH|first IHfirst second IHsecond
                  |elements IH]; cbn [plain type_of string_free]; intros H;
    try reflexivity; try discriminate H.
  - now apply andb_true_iff in H as [H _].
  - apply andb_true_iff in H as [H1 H2].
    now rewrite (IHfirst H1), (IHsecond H2).
  - induction IH as [|e IHe elements _ IHelements]; [reflexivity|].
    cbn [forallb map] in *. apply andb_true_iff in H as [He Hes].
    now rewrite (IHe He), (IHelements Hes).
Qed.

Lemma for_each_widened {En Ew : Type}
      (fn : basic_ostream char -> En -> result (basic_ostream char))
      (fw : basic_ostream wchar_t -> Ew -> result (basic_ostream wchar_t))
      (ln : list En) (lw : list Ew) :
  Forall2 (fun en ew =>
             forall s, fw (map N_of_ascii s) ew = widened (fn s en)) ln lw ->
  forall s,
    for_each wchar_t lw fw (map N_of_ascii s)
    = widened (for_each char ln fn s).
Proof.
  induction 1 as [|en ew ln lw Hhead _ IH]; intros s; cbn [for_each];
    [reflexivity|].
  rewrite Hhead. destruct (fn s en); cbn [widened bind];
    [apply IH|reflexivity].
Qed.

Lemma Forall2_removelast {A B : Type} (R : A -> B -> Prop)
      (l : list A) (l' : list B) :
  Forall2 R l l' -> Forall2 R (removelast l) (removelast l').
Proof.
  induction 1 as [|x y l l' Hxy Hl IH]; [constructor|].
  destruct Hl; cbn [removelast]; constructor; assumption.
Qed.

Lemma Forall2_back {A B : Type} (R : A -> B -> Prop)
      (l : list A) (l' : list B) :
  Forall2 R l l' ->
  match back l, back l' with
  | Some x, Some y => R x y
  | None, None => True
  | _, _ => False
  end.
Proof.
  induction 1 as [|x y l l' Hxy Hl IH]; [exact I|].
  destruct Hl; [exact Hxy|exact IH].
Qed.

Lemma PrintingHelper_widened {En Ew : Type}
      (shl_n : basic_ostream char -> En -> result (basic_ostream char))
      (shl_w : basic_ostream wchar_t -> Ew -> result (basic_ostream wchar_t))
      (T : type) (ln : list En) (lw : list Ew) :
  string_free T = true ->
  Forall2 (fun en ew =>
             forall s, shl_w (map N_of_ascii s) ew = widened (shl_n s en))
          ln lw ->
  forall s,
    PrintingHelper wchar_t visible shl_w T (map N_of_ascii s) lw
    = widened (PrintingHelper char visible shl_n T s ln).
Proof.
  intros HT H s. unfold PrintingHelper.
  rewrite (PrintingHelper_instantiates_width T HT).
  destruct (PrintingHelper_instantiates char visible T); [|reflexivity].
  rewrite !delimiters_table. cbn [bind]. unfold distance.
  rewrite <- (Forall2_length H).
  destruct (List.length ln =? 0); [reflexivity|].
  destruct (delimiter_table_width T) as (Hprefix & Hdelimiter & Hpostfix).
  unfold write. rewrite Hprefix, Hdelimiter, Hpostfix, <- map_app.
  rewrite (for_each_widened
             (fun stream value =>
                stream <- shl_n stream value ;;
                Ok (stream ++ delimiter (delimiter_table T char)))
             (fun stream value =>
                stream <- shl_w stream value ;;
                Ok (stream
                      ++ map N_of_ascii
                           (delimiter (delimiter_table T char))))
             (removelast ln) (removelast lw)).
  - destruct (for_each char (removelast ln) _ _) as [s'|];
      cbn [widened bind]; [|reflexivity].
    pose proof (Forall2_back _ _ _ H) as Hback.
    destruct (back ln), (back lw); try contradiction; [|reflexivity].
    rewrite Hback. destruct (shl_n s' e); cbn [widened bind];
      [now rewrite map_app|reflexivity].
  - apply Forall2_removelast. revert H. apply Forall2_impl.
    intros en ew Hrel s'. rewrite Hrel.
    destruct (shl_n s' en); cbn [widened bind];
      [now rewrite map_app|reflexivity].
Qed.

Lemma PrintingHelper_pair_widened
      (first_n second_n : inserter char) (first_w second_w : inserter wchar_t)
      (F S : type) :
  string_free F = true -> string_free S = true ->
  (forall s, first_w (map N_of_ascii s) = widened (first_n s)) ->
  (forall s, second_w (map N_of_ascii s) = widened (second_n s)) ->
  forall s,
    PrintingHelper_pair wchar_t visible (run wchar_t) (run wchar_t) F S
      (map N_of_ascii s) (first_w, second_w)
    = widened (PrintingHelper_pair char visible (run char) (run char) F S
                 s (first_n, second_n)).
Proof.
  intros HF HS Hfirst Hsecond s. unfold PrintingHelper_pair.
  rewrite (PrintingHelper_pair_instantiates_width F S HF HS).
  destruct (PrintingHelper_pair_instantiates char visible F S);
    [|reflexivity].
  unfold unqualified_t. rewrite !delimiters_table. cbn [bind fst snd].
  destruct (delimiter_table_width (std_pair F S))
    as (Hprefix & Hdelimiter & Hpostfix).
  unfold write, run. rewrite Hprefix, Hdelimiter, Hpostfix, <- map_app.
  rewrite Hfirst. destruct (first_n _); cbn [widened bind]; [|reflexivity].
  rewrite <- map_app, Hsecond.
  destruct (second_n _); cbn [widened bind];
    [now rewrite map_app|reflexivity].
Qed.

Lemma std_insert_widened (v : value) (s : basic_ostream char) :
  plain v = true ->
  std_insert wchar_t v (map N_of_ascii s) = widened (std_insert char v s).
Proof.
  destruct v as [z|C' text|T elements|first second|elements];
    intros H; try discriminate H; try reflexivity.
  unfold std_insert, write. cbn [widened widen].
  now rewrite map_app, map_id.
Qed.

Lemma insert_widened (v : value) :
  plain v = true ->
  forall s,
    insert wchar_t visible v (map N_of_ascii s)
    = widened (insert char visible v s).
Proof.
  induction v as [z|C' text|T elements IH|first IHfirst second IHsecond
                  |elements IH];
    intros Hv s; try discriminate Hv;
    rewrite !insert_unfold,
      (resolve_width _ (string_free_is_no_string _ (plain_type _ Hv)));
    destruct (resolve char visible _);
    try apply (std_insert_widened _ _ Hv); try reflexivity;
    unfold PrintTo; cbn [m_container].
  - cbn [plain] in Hv. apply andb_true_iff in Hv as [HT Helements].
    apply (PrintingHelper_widened (run char) (run wchar_t)); [exact HT|].
    clear -IH Helements.
    induction IH as [|e IHe elements _ IHelements]; cbn [map];
      [constructor|].
    cbn [forallb] in Helements.
    apply andb_true_iff in Helements as [He Helements].
    constructor; [exact (IHe He)|exact (IHelements Helements)].
  - cbn [plain] in Hv. apply andb_true_iff in Hv as [Hfirst Hsecond].
    apply PrintingHelper_pair_widened;
      auto using plain_type.
Qed.

(** A value whose leaves are integers (containers and pairs of integers,
    nested or not, of string-free container types) is printed on a wide
    stream as on a narrow one, character for character: the wide text is
    the narrow text widened, and a rejection on one stream is the same
    rejection on the other. *)
Theorem wide_stream_prints_the_widened_text
        (v : value) (stream : basic_ostream char) :
  well_typed v ->
  plain v = true ->
  operator_shl wchar_t visible (map N_of_ascii stream) v
  = widened (operator_shl char visible stream v).
Proof.
  intros _ Hv. unfold operator_shl.
  destruct (Traits.is_printable_as_container_v (type_of v));
    [|reflexivity].
  rewrite !bind_return.
  destruct v as [z|C' text|T elements|first second|elements];
    try discriminate Hv; try reflexivity; unfold PrintTo;
    cbn [m_container].
  - cbn [plain] in Hv. apply andb_true_iff in Hv as [HT Helements].
    apply (PrintingHelper_widened (run char) (run wchar_t)); [exact HT|].
    clear -Helements.
    induction elements as [|e elements IH]; cbn [map]; [constructor|].
    cbn [forallb] in Helements.
    apply andb_true_iff in Helements as [He Helements].
    constructor; [exact (insert_widened e He)|exact (IH Helements)].
  - cbn [plain] in Hv. apply andb_true_iff in Hv as [Hfirst Hsecond].
    apply PrintingHelper_pair_widened;
      auto using plain_type, insert_widened.
Qed.

End Width.

Lemma wide_stream_prints_the_widened_text_witness :
  operator_shl wchar_t argument_dependent_lookup std_wcout
    (integers (std_vector Int) [1; 2; 3; 4]%Z)
  = Ok (L "[1, 2, 3, 4]").
Proof.
  apply (wide_stream_prints_the_widened_text argument_dependent_lookup
           (integers (std_vector Int) [1; 2; 3; 4]%Z) std_cout);
    [|reflexivity].
  split; [reflexivity|]. exists Int. repeat split; reflexivity.
Defined.

(** ** Requirements of the printing routine *)

(** A container type whose iterators have no arithmetic (and that is no
    array), or that has no [back()], is never printed, whatever it holds
    and on every stream: lines 259 and 265 are instantiated with the
    type. *)
Theorem missing_requirements_reject_the_container
        (C : CharacterType) (visible : type -> bool) (T : type) :
  Printer.is_array T || has T iterator_arithmetic = false
  \/ has T back_member = false ->
  forall (elements : list value) (stream : basic_ostream C),
  exists d,
    operator_shl C visible stream (Sequence T elements) = IllFormed d.
Proof.
  intros H elements stream. unfold operator_shl. cbn [type_of].
  destruct (Traits.is_printable_as_container_v T); [|eauto].
  unfold Printer.PrintTo, Printer.PrintingHelper,
    Printer.PrintingHelper_instantiates,
    Printer.PrintingHelper_instantiates_with.
  cbn [Printer.m_container]. rewrite delimiters_table. cbn [bind].
  destruct (require (_ || _ && _) _); cbn [bind]; [|eauto].
  destruct H as [H|H]; rewrite H; cbn [require bind]; [eauto|].
  destruct (require _ _); cbn [bind]; [|eauto].
  destruct (match Printer.element_with _ T with
            | Some checked => checked
            | None => Ok tt
            end); cbn [bind]; eauto.
Qed.

Lemma missing_requirements_reject_the_container_witness :
  exists d,
    operator_shl char lookup_at_instantiation std_cout
      (Sequence (std_list std_string) []) = IllFormed d.
Proof.
  apply (missing_requirements_reject_the_container char
           lookup_at_instantiation (std_list std_string)).
  left. reflexivity.
Defined.

(** ** Instances of the statements above *)

Lemma containers_of_tuples_are_never_printed_witness :
  exists d,
    operator_shl char lookup_at_instantiation std_cout
      (Sequence (std_vector (std_tuple [Int; Int])) []) = IllFormed d.
Proof.
  apply (containers_of_tuples_are_never_printed char
           lookup_at_instantiation (std_vector (std_tuple [Int; Int]))
           [Int; Int]); reflexivity.
Defined.


(** ** The routine and the formatting state of the stream *)

Section FormattedFacts.
Variable C : CharacterType.
Variable visible : type -> bool.
Variable f : character C.
Variable l : bool.










End FormattedFacts.

(** *** A stream that is not good *)

Section FormattedTwice.

Variable C : CharacterType.
Variable visible : type -> bool.













(** *** Printing twice *)


End FormattedTwice.


